(** * ast_import_analyzer: a shallow embedding of the extractor and the resolver

    The development follows the package layout:
    - [Py]       the fragment of Python the package relies on (strings,
                 [pathlib] paths, exceptions, insertion-ordered dicts);
    - [Ast]      the syntax-tree shapes the visitor dispatches on;
    - [Visitor]  [visitor.py], class [ImportsVisitor];
    - [Os]       the file system and the other collaborators of a run;
    - [Utils]    [utils.py];
    - [Analyzer] [analyzer.py], class [PythonFileAnalyzer];
    - [Manager]  [manager.py], class [LinterManager];
    - [Props]    the vocabulary the properties are stated in;
    - [Fixtures] small projects the model is run on.
    The definitions come first, the properties of each component after them. *)

From Stdlib Require Import Ascii String.
From stdpp Require Import base decidable option list strings gmap sets.

Local Open Scope string_scope.

(* ===================================================================== *)
(** ** Python values used by the package *)
(* ===================================================================== *)

Module Py.

(** *** Strings *)

(** [s.split(sep)] for a one-character separator: never the empty list. *)
Fixpoint split (sep : ascii) (s : string) : list string :=
  match s with
  | EmptyString => [EmptyString]
  | String c rest =>
      if Ascii.eqb c sep then EmptyString :: split sep rest
      else match split sep rest with
           | [] => [String c EmptyString]
           | p :: ps => String c p :: ps
           end
  end.

(** [sep.join(parts)]. *)
Fixpoint join (sep : string) (parts : list string) : string :=
  match parts with
  | [] => EmptyString
  | [p] => p
  | p :: ps => p +:+ sep +:+ join sep ps
  end.

(** [c in s] for a one-character needle. *)
Fixpoint contains (c : ascii) (s : string) : bool :=
  match s with
  | EmptyString => false
  | String d rest => Ascii.eqb d c || contains c rest
  end.

(** [s.rsplit(sep, 1)] on a string that contains [sep]: the text before the
    last separator and the text after it. *)
Definition rsplit1 (sep : ascii) (s : string) : string * string :=
  let parts := split sep s in
  (join (String sep EmptyString) (removelast parts), List.last parts EmptyString).

(** [s.endswith(suffix)]. *)
Definition endswith (s suffix : string) : bool :=
  let n := String.length s in
  let k := String.length suffix in
  (k <=? n)%nat && String.eqb (substring (n - k) k s) suffix.

(** Truth value of a string: non-empty. *)
Definition truthy (s : string) : bool :=
  match s with EmptyString => false | String _ _ => true end.

(** *** pathlib

    An absolute POSIX path is the list of its parts below the root.
    Building a path from text drops empty and [.] components and keeps
    [..]; joining with an absolute text replaces the left operand. *)

Abbreviation Path := (list string).

Definition parts_of_str (s : string) : Path :=
  List.filter (fun seg => negb (String.eqb seg "" || String.eqb seg "."))
              (split "/" s).

Definition is_absolute (s : string) : bool :=
  match s with String "/" _ => true | _ => false end.

(** [p / s] *)
Definition truediv (p : Path) (s : string) : Path :=
  if is_absolute s then parts_of_str s else p ++ parts_of_str s.

(** [str(p)] *)
Definition str_of_path (p : Path) : string := "/" +:+ join "/" p.

(** *** Exceptions

    The classes the package names in a handler or raises itself, a class
    standing for every other subclass of [Exception], and one for what lies
    outside [Exception] ([KeyboardInterrupt], [SystemExit]). *)

Inductive ExcClass :=
| SyntaxError
| ModuleNotFoundError
| FileNotFoundError
| TypeError
| OtherException
| NonException.

Record PyExc := mkExc { exc_class : ExcClass; exc_str : string }.

#[global] Instance ExcClass_eq_dec : EqDecision ExcClass.
Proof. solve_decision. Defined.

#[global] Instance PyExc_eq_dec : EqDecision PyExc.
Proof. solve_decision. Defined.

(** [isinstance(e, Exception)] *)
Definition is_Exception (e : PyExc) : bool :=
  match exc_class e with NonException => false | _ => true end.

Definition is_class (c : ExcClass) (e : PyExc) : bool :=
  bool_decide (exc_class e = c).

(** The outcome of evaluating an expression or a call. *)
Inductive Result (A : Type) :=
| Ok (a : A)
| Raise (e : PyExc).
Arguments Ok {A} a.
Arguments Raise {A} e.

Definition rbind {A B} (r : Result A) (k : A -> Result B) : Result B :=
  match r with
  | Ok a => k a
  | Raise e => Raise e
  end.

(** *** Operands of [/] and [+]

    [Path] implements [__truediv__] with a string on the right and has no
    [__add__]; [str] has no [__radd__].  [+] is defined between strings. *)

Inductive Obj :=
| OPath (p : Path)
| OStr (s : string).

Definition type_name (o : Obj) : string :=
  match o with OPath _ => "PosixPath" | OStr _ => "str" end.

Definition op_truediv (a b : Obj) : Result Obj :=
  match a, b with
  | OPath p, OStr s => Ok (OPath (truediv p s))
  | OPath p, OPath q => Ok (OPath (truediv p (str_of_path q)))
  | _, _ =>
      Raise (mkExc TypeError
        ("unsupported operand type(s) for /: '" +:+ type_name a +:+
         "' and '" +:+ type_name b +:+ "'"))
  end.

Definition op_add (a b : Obj) : Result Obj :=
  match a, b with
  | OStr s, OStr t => Ok (OStr (s +:+ t))
  | _, _ =>
      Raise (mkExc TypeError
        ("unsupported operand type(s) for +: '" +:+ type_name a +:+
         "' and '" +:+ type_name b +:+ "'"))
  end.

(** *** dict: keys in insertion order, a key stored once *)

Section Dict.
Context {K V : Type} `{EqDecision K}.

Definition dict := list (K * V).

Definition keys (d : dict) : list K := d.*1.

Fixpoint get (k : K) (d : dict) : option V :=
  match d with
  | [] => None
  | (k', v) :: rest => if decide (k' = k) then Some v else get k rest
  end.

(** [k in d] *)
Definition mem (k : K) (d : dict) : bool := bool_decide (is_Some (get k d)).

(** [d[k] = v]: a present key keeps its position, a new one goes last. *)
Fixpoint set (k : K) (v : V) (d : dict) : dict :=
  match d with
  | [] => [(k, v)]
  | (k', v') :: rest =>
      if decide (k' = k) then (k', v) :: rest else (k', v') :: set k v rest
  end.
End Dict.
Arguments dict : clear implicits.

End Py.

(* ===================================================================== *)
(** ** Syntax trees *)
(* ===================================================================== *)

Module Ast.

#[local] Set Warnings "-register-all".

(** [ast.alias]: [name] is the imported dotted path or ["*"], [asname] the
    optional binding after [as]. *)
Record alias := mk_alias { name : string; asname : option string }.

(** Expressions.  The visitor tests targets for [ast.Name] and [ast.Tuple];
    the other target kinds are kept apart, and [OtherExpr] stands for every
    remaining expression node with its sub-expressions.  No expression node
    holds a statement. *)
Inductive expr :=
| Name (id : string)
| Tuple (elts : list expr)
| ListDisplay (elts : list expr)
| Starred (value : expr)
| Attribute (value : expr) (attr : string)
| Subscript (value : expr) (slice : expr)
| OtherExpr (children : list expr).

(** Statements, with the statement children [generic_visit] reaches in
    field order.  [OtherStmt] stands for every node kind without a
    [visit_] method that holds statements or expressions (conditionals,
    loops, handlers, expression statements, annotated assignments ...). *)
Inductive stmt :=
| Import (names : list alias)
| ImportFrom (module : option string) (names : list alias) (level : nat)
| Assign (targets : list expr) (value : expr)
| FunctionDef (name : string) (body : list stmt)
| AsyncFunctionDef (name : string) (body : list stmt)
| ClassDef (name : string) (body : list stmt)
| OtherStmt (exprs : list expr) (body : list stmt).

(** [ast.Module] *)
Definition module_ := list stmt.

End Ast.

(* ===================================================================== *)
(** ** visitor.py *)
(* ===================================================================== *)

Module Visitor.
Import Ast.

Record ImportsVisitor := mkVisitor {
  imported_modules : gset string;
  module_defs : gset string
}.

(** [ImportsVisitor.__init__] *)
Definition init : ImportsVisitor := mkVisitor ∅ ∅.

Definition add_import (p : string) (v : ImportsVisitor) : ImportsVisitor :=
  mkVisitor ({[p]} ∪ imported_modules v) (module_defs v).

Definition add_def (n : string) (v : ImportsVisitor) : ImportsVisitor :=
  mkVisitor (imported_modules v) ({[n]} ∪ module_defs v).

(** [generic_visit] below an expression: no node kind met there has a
    [visit_] method, the traversal only descends. *)
Fixpoint generic_visit_expr (e : expr) (v : ImportsVisitor) : ImportsVisitor :=
  match e with
  | Name _ => v
  | Tuple elts | ListDisplay elts | OtherExpr elts =>
      fold_left (fun acc c => generic_visit_expr c acc) elts v
  | Starred x | Attribute x _ => generic_visit_expr x v
  | Subscript x i => generic_visit_expr i (generic_visit_expr x v)
  end.

Definition generic_visit_exprs (es : list expr) (v : ImportsVisitor) : ImportsVisitor :=
  fold_left (fun acc c => generic_visit_expr c acc) es v.

(** The loop of [visit_Import]. *)
Definition visit_Import_names (names : list alias) (v : ImportsVisitor) : ImportsVisitor :=
  fold_left (fun acc a => add_import (name a) acc) names v.

(** One turn of the loop of [visit_ImportFrom]. *)
Definition visit_ImportFrom_alias (module : string) (a : alias) (v : ImportsVisitor)
  : ImportsVisitor :=
  if String.eqb (name a) "*" then
    if Py.truthy module then add_import module v else v
  else if Py.truthy module then add_import (module +:+ "." +:+ name a) v
  else add_import (name a) v.

Definition visit_ImportFrom_names (module : option string) (names : list alias)
    (v : ImportsVisitor) : ImportsVisitor :=
  let module := default "" module in
  fold_left (fun acc a => visit_ImportFrom_alias module a acc) names v.

(** One turn of the inner loop of [visit_Assign], over the elements of a
    tuple target. *)
Definition visit_Assign_elt (elt : expr) (v : ImportsVisitor) : ImportsVisitor :=
  match elt with
  | Name id => add_def id v
  | _ => v
  end.

(** One turn of the outer loop of [visit_Assign]. *)
Definition visit_Assign_target (target : expr) (v : ImportsVisitor) : ImportsVisitor :=
  match target with
  | Name id => add_def id v
  | Tuple elts => fold_left (fun acc e => visit_Assign_elt e acc) elts v
  | _ => v
  end.

Definition visit_Assign_targets (targets : list expr) (v : ImportsVisitor) : ImportsVisitor :=
  fold_left (fun acc t => visit_Assign_target t acc) targets v.

(** [NodeVisitor.visit] on a statement: dispatch on the node kind, each
    method ending in [generic_visit]. *)
Fixpoint visit (s : stmt) (v : ImportsVisitor) : ImportsVisitor :=
  match s with
  | Import names => visit_Import_names names v
  | ImportFrom module names _ => visit_ImportFrom_names module names v
  | Assign targets value =>
      generic_visit_expr value
        (generic_visit_exprs targets (visit_Assign_targets targets v))
  | FunctionDef n body | AsyncFunctionDef n body | ClassDef n body =>
      fold_left (fun acc c => visit c acc) body (add_def n v)
  | OtherStmt exprs body =>
      fold_left (fun acc c => visit c acc) body (generic_visit_exprs exprs v)
  end.

(** [visitor.visit(tree)] on an [ast.Module]. *)
Definition visit_Module (tree : module_) (v : ImportsVisitor) : ImportsVisitor :=
  fold_left (fun acc c => visit c acc) tree v.

End Visitor.

(* ===================================================================== *)
(** ** The surroundings of a run *)
(* ===================================================================== *)

Module Os.
Import Py.

#[local] Set Warnings "-register-all".

(** [logging]: the records the package emits. *)
Inductive LogLevel := WARNING | ERROR.

Record LogRecord := mkLog { levelname : LogLevel; log_message : string }.

(** The directory tree.  A file carries what [read_text] followed by
    [ast.parse] yields on it when the analyzer reaches it: a module, or the
    exception raised ([SyntaxError] for text that does not parse, another
    class for text that cannot be read or decoded).  A directory lists its
    entries in [os.scandir] order. *)
Inductive fsnode :=
| FsFile (source : Result Ast.module_)
| FsDir (entries : list (string * fsnode)).

Fixpoint lookup_entry (n : string) (es : list (string * fsnode)) : option fsnode :=
  match es with
  | [] => None
  | (n', x) :: rest => if String.eqb n' n then Some x else lookup_entry n rest
  end.

(** Path resolution from a directory [cur] whose ancestors are [up]
    (nearest first); [..] of the root is the root. *)
Fixpoint resolve (up : list fsnode) (cur : fsnode) (p : Path) : option fsnode :=
  match p with
  | [] => Some cur
  | seg :: rest =>
      match cur with
      | FsFile _ => None
      | FsDir es =>
          if String.eqb seg ".." then
            match up with
            | [] => resolve [] cur rest
            | parent :: up' => resolve up' parent rest
            end
          else
            match lookup_entry seg es with
            | Some child => resolve (cur :: up) child rest
            | None => None
            end
      end
  end.

(** Whether resolution stops at a regular file that a later segment is
    looked up in: the system call fails with [ENOTDIR] there, and with
    [ENOENT] where an entry is missing. *)
Fixpoint crosses_file (up : list fsnode) (cur : fsnode) (p : Path) : bool :=
  match p with
  | [] => false
  | seg :: rest =>
      match cur with
      | FsFile _ => true
      | FsDir es =>
          if String.eqb seg ".." then
            match up with
            | [] => crosses_file [] cur rest
            | parent :: up' => crosses_file up' parent rest
            end
          else
            match lookup_entry seg es with
            | Some child => crosses_file (cur :: up) child rest
            | None => false
            end
      end
  end.

(** A module object as [validate_import] uses it: [hasattr(module, a)]
    answers, or lets through what the attribute lookup raises. *)
Record ModuleObj := mkModule { hasattr : string -> Result bool }.

(** What a run depends on besides the manager itself. *)
Record Env := mkEnv {
  (** the directory tree below [/] *)
  fs_root : fsnode;
  (** [Path.cwd()] *)
  cwd : Path;
  (** [sys.platform] *)
  sys_platform : string;
  (** the order in which this process iterates a [set[str]] *)
  set_iter : gset string -> list string;
  (** [importlib.import_module] *)
  import_module : string -> Result ModuleObj;
  (** [subprocess.run(command, ...)]: the return code, or what it raises *)
  subprocess_run : list string -> Result nat
}.

Definition stat (env : Env) (p : Path) : option fsnode := resolve [] (fs_root env) p.

(** The path runs through a regular file. *)
Definition below_file (env : Env) (p : Path) : bool := crosses_file [] (fs_root env) p.

(** [p.exists()], [p.is_file()], [p.is_dir()] *)
Definition exists_ (env : Env) (p : Path) : bool :=
  match stat env p with Some _ => true | None => false end.

Definition is_file (env : Env) (p : Path) : bool :=
  match stat env p with Some (FsFile _) => true | _ => false end.

Definition is_dir (env : Env) (p : Path) : bool :=
  match stat env p with Some (FsDir _) => true | _ => false end.

Definition dirnames (es : list (string * fsnode)) : list string :=
  omap (fun e => match e.2 with FsDir _ => Some e.1 | FsFile _ => None end) es.

Definition filenames (es : list (string * fsnode)) : list string :=
  omap (fun e => match e.2 with FsFile _ => Some e.1 | FsDir _ => None end) es.

(** [os.walk(top)], top-down, in the shape the manager consumes it: the
    loop body prunes [dirnames] in place, which decides where the walk
    descends; [keep dirpath d] is that filter.  Each triple is
    [(dirpath, dirnames after pruning, filenames)]. *)
Fixpoint walk (keep : Path -> string -> bool) (top : Path) (n : fsnode)
  : list (Path * list string * list string) :=
  match n with
  | FsFile _ => []
  | FsDir es =>
      (top, List.filter (keep top) (dirnames es), filenames es) ::
      flat_map (fun e =>
                  match e.2 with
                  | FsDir _ =>
                      if keep top e.1 then walk keep (top ++ [e.1]) e.2 else []
                  | FsFile _ => []
                  end) es
  end.

End Os.

(* ===================================================================== *)
(** ** utils.py *)
(* ===================================================================== *)

Module Utils.
Import Py Os.

(** [run_subprocess]: the result and the records logged. *)
Definition run_subprocess (env : Env) (command : list string)
  : Result (option nat) * list LogRecord :=
  match subprocess_run env command with
  | Ok returncode => (Ok (Some returncode), [])
  | Raise ex =>
      if is_class FileNotFoundError ex then
        match command with
        | c :: _ => (Ok None, [mkLog WARNING ("Command not found: " +:+ c)])
        | [] => (Raise (mkExc OtherException "list index out of range"), [])
        end
      else if is_Exception ex then
        (Ok None, [mkLog ERROR ("Subprocess error: " +:+ exc_str ex)])
      else (Raise ex, [])
  end.

(** [pre_cleanup_with_ruff] *)
Definition pre_cleanup_with_ruff (env : Env) (path : Path)
  : Result bool * list LogRecord :=
  match run_subprocess env ["ruff"; "check"; str_of_path path; "--fix"] with
  | (Ok result, logs) =>
      (Ok (match result with Some rc => bool_decide (rc = 0) | None => false end), logs)
  | (Raise ex, logs) => (Raise ex, logs)
  end.

(** The body of the [try] in [validate_import]. *)
Definition validate_import_try (env : Env) (module_path attr_name : string)
    (source_file : option string) : Result (option string) :=
  rbind (import_module env module_path) (fun module =>
    if truthy attr_name then
      rbind (hasattr module attr_name) (fun has =>
        if negb has then
          let ctx := match source_file with
                     | Some f => if truthy f then " in " +:+ f else ""
                     | None => ""
                     end in
          Ok (Some ("Module '" +:+ module_path +:+ "' has no attribute '" +:+
                    attr_name +:+ "'" +:+ ctx))
        else Ok None)
    else Ok None).

(** The [if "." in dotted_path: ... else: ...] of [validate_import]:
    [(module_path, attr_name)]. *)
Definition split_module_attr (dotted_path : string) : string * string :=
  if contains "." dotted_path then rsplit1 "." dotted_path
  else (dotted_path, "").

(** [validate_import]: [None] when the path resolves, else the message. *)
Definition validate_import (env : Env) (dotted_path : string)
    (source_file : option string) : Result (option string) :=
  if negb (truthy dotted_path) then Ok (Some "Empty import path")
  else
    let module_path := (split_module_attr dotted_path).1 in
    let attr_name := (split_module_attr dotted_path).2 in
    match validate_import_try env module_path attr_name source_file with
    | Ok r => Ok r
    | Raise err =>
        if is_class ModuleNotFoundError err then
          let ctx := match source_file with
                     | Some f => if truthy f then " in " +:+ f else ""
                     | None => ""
                     end in
          Ok (Some ("Module not found: '" +:+ module_path +:+ "'" +:+ ctx +:+
                    " (" +:+ exc_str err +:+ ")"))
        else if is_Exception err then
          Ok (Some ("Import error for '" +:+ dotted_path +:+ "': " +:+ exc_str err))
        else Raise err
    end.

(** [VirtualEnvChecker.VENV_INDICATORS.get(sys.platform, set())] *)
Definition VENV_INDICATORS (platform : string) : list string :=
  if String.eqb platform "linux" then ["bin"; "include"; "lib"; "pyvenv.cfg"]
  else if String.eqb platform "linux2" then ["bin"; "include"; "lib"; "pyvenv.cfg"]
  else if String.eqb platform "darwin" then ["bin"; "include"; "lib"; "pyvenv.cfg"]
  else if String.eqb platform "win32" then ["Scripts"; "Include"; "Lib"; "pyvenv.cfg"]
  else [].

(** [VirtualEnvChecker.is_venv] *)
Definition is_venv (env : Env) (path : Path) : bool :=
  if negb (is_dir env path) then false
  else
    match VENV_INDICATORS (sys_platform env) with
    | [] => exists_ env (truediv path "pyvenv.cfg")
    | indicators => forallb (fun ind => exists_ env (truediv path ind)) indicators
    end.

End Utils.

(* ===================================================================== *)
(** ** analyzer.py *)
(* ===================================================================== *)

Module Analyzer.
Import Py Os.

Record PythonFileAnalyzer := mkAnalyzer {
  file_path : Path;
  imported_modules : gset string;
  module_defs : gset string
}.

(** [PythonFileAnalyzer.__init__] *)
Definition init (file_path : Path) : PythonFileAnalyzer := mkAnalyzer file_path ∅ ∅.

(** [read_text] then [ast.parse] on the analyzer's file.  Opening a path
    that does not resolve raises [FileNotFoundError] where an entry is
    missing and [NotADirectoryError] where the path runs through a regular
    file; opening a directory raises [IsADirectoryError].  The last two are
    subclasses of [OSError] the package names nowhere. *)
Definition read_and_parse (env : Env) (p : Path) : Result Ast.module_ :=
  match stat env p with
  | None =>
      if below_file env p then
        Raise (mkExc OtherException
                 ("[Errno 20] Not a directory: '" +:+ str_of_path p +:+ "'"))
      else
        Raise (mkExc FileNotFoundError
                 ("[Errno 2] No such file or directory: '" +:+ str_of_path p +:+ "'"))
  | Some (FsDir _) =>
      Raise (mkExc OtherException
               ("[Errno 21] Is a directory: '" +:+ str_of_path p +:+ "'"))
  | Some (FsFile source) => source
  end.

(** [PythonFileAnalyzer.analyze] *)
Definition analyze (env : Env) (a : PythonFileAnalyzer) : Result PythonFileAnalyzer :=
  rbind (read_and_parse env (file_path a)) (fun tree =>
    let visitor := Visitor.visit_Module tree Visitor.init in
    Ok (mkAnalyzer (file_path a)
                   (Visitor.imported_modules visitor)
                   (Visitor.module_defs visitor))).

End Analyzer.

(* ===================================================================== *)
(** ** manager.py *)
(* ===================================================================== *)

Module Manager.
Import Py Os.

Record ImportIssue := mkIssue {
  file : Path;
  import_path : string;
  message : string;
  issue_type : string
}.

#[global] Instance ImportIssue_eq_dec : EqDecision ImportIssue.
Proof. solve_decision. Defined.

(** [ImportIssue.__str__] *)
Definition issue_str (i : ImportIssue) : string :=
  "[" +:+ issue_type i +:+ "] " +:+ str_of_path (file i) +:+ ": " +:+ message i.

Record LinterManager := mkManager {
  root_path : Path;
  module_defs : dict Path (gset string);
  file_imports : dict Path (gset string);
  issues : list ImportIssue;
  excluded_dirs : gset string;
  auto_fix : bool
}.

Definition DEFAULT_EXCLUDED_DIRS : gset string :=
  list_to_set
    ["__pycache__"; ".git"; ".gitlab"; ".github"; ".idea"; ".venv"; "venv";
     "env"; ".env"; "node_modules"; "build"; "dist"; ".eggs"; "*.egg-info";
     "alembic"; "migrations"].

(** [LinterManager.__init__] *)
Definition init (env : Env) (path : string) (excluded : option (gset string))
    (auto_fix : bool) : LinterManager :=
  mkManager (truediv (cwd env) path) [] [] []
            (match excluded with
             | Some extra => DEFAULT_EXCLUDED_DIRS ∪ extra
             | None => DEFAULT_EXCLUDED_DIRS
             end)
            auto_fix.

(** *** Methods that change the manager or log

    The manager and the log survive an exception: a method maps the state
    before to its outcome and the state after. *)

Record State := mkState { self : LinterManager; log : list LogRecord }.

Definition M (A : Type) : Type := State -> Result A * State.

Definition ret {A} (a : A) : M A := fun st => (Ok a, st).

Definition bind {A B} (m : M A) (k : A -> M B) : M B :=
  fun st =>
    match m st with
    | (Ok a, st') => k a st'
    | (Raise e, st') => (Raise e, st')
    end.

Definition raise {A} (e : PyExc) : M A := fun st => (Raise e, st).

Definition lift {A} (r : Result A) : M A := fun st => (r, st).

Definition get_self : M LinterManager := fun st => (Ok (self st), st).

Definition emit (records : list LogRecord) : M unit :=
  fun st => (Ok tt, mkState (self st) (log st ++ records)).

Definition modify (f : LinterManager -> LinterManager) : M unit :=
  fun st => (Ok tt, mkState (f (self st)) (log st)).

Notation "'let*' x ':=' m 'in' k" := (bind m (fun x => k))
  (at level 10, x name, m at level 100, k at level 200).
Notation "m >> k" := (bind m (fun _ => k))
  (at level 90, right associativity).

(** [for x in xs: body(x)] *)
Fixpoint for_ {X} (xs : list X) (body : X -> M unit) : M unit :=
  match xs with
  | [] => ret tt
  | x :: rest => body x >> for_ rest body
  end.

Definition set_index (file_path : Path) (a : Analyzer.PythonFileAnalyzer)
    (m : LinterManager) : LinterManager :=
  mkManager (root_path m)
            (set file_path (Analyzer.module_defs a) (module_defs m))
            (set file_path (Analyzer.imported_modules a) (file_imports m))
            (issues m) (excluded_dirs m) (auto_fix m).

Definition append_issue (i : ImportIssue) (m : LinterManager) : LinterManager :=
  mkManager (root_path m) (module_defs m) (file_imports m)
            (issues m ++ [i]) (excluded_dirs m) (auto_fix m).

(** [LinterManager._analyze_file] *)
Definition _analyze_file (env : Env) (file_path : Path) : M unit :=
  let* m := get_self in
  (if auto_fix m then
     let '(r, records) := Utils.pre_cleanup_with_ruff env file_path in
     emit records >> let* _ := lift r in ret tt
   else ret tt) >>
  match Analyzer.analyze env (Analyzer.init file_path) with
  | Ok analyzer => modify (set_index file_path analyzer)
  | Raise err =>
      if is_class SyntaxError err then
        emit [mkLog WARNING ("Syntax error in " +:+ str_of_path file_path +:+
                             ": " +:+ exc_str err)]
      else if is_Exception err then
        emit [mkLog ERROR ("Error analyzing " +:+ str_of_path file_path +:+
                           ": " +:+ exc_str err)]
      else raise err
  end.

(** The filter of [_analyze_directory] on [dirnames]. *)
Definition keep_dir (env : Env) (m : LinterManager) (dirpath : Path) (d : string) : bool :=
  negb (bool_decide (d ∈ excluded_dirs m)) &&
  negb (Utils.is_venv env (truediv dirpath d)).

(** The inner loop of [_analyze_directory]. *)
Definition analyze_filenames (env : Env) (dirpath : Path) (filenames : list string)
  : M unit :=
  for_ filenames (fun filename =>
    if endswith filename ".py" then _analyze_file env (truediv dirpath filename)
    else ret tt).

(** [LinterManager._analyze_directory] *)
Definition _analyze_directory (env : Env) : M unit :=
  let* m := get_self in
  match stat env (root_path m) with
  | Some top =>
      for_ (walk (keep_dir env m) (root_path m) top)
           (fun '(dirpath, _, filenames) => analyze_filenames env dirpath filenames)
  | None => ret tt
  end.

(** [LinterManager._collect_files] *)
Definition _collect_files (env : Env) : M unit :=
  let* m := get_self in
  if is_file env (root_path m) then _analyze_file env (root_path m)
  else if is_dir env (root_path m) then _analyze_directory env
  else ret tt.

(** [x in d] and [d[x]] for an operand that need not be a path: a string
    is hashable and equal to no key. *)
Definition obj_mem {V} (o : Obj) (d : dict Path V) : bool :=
  match o with OPath p => mem p d | OStr _ => false end.

Definition obj_get {V} (o : Obj) (d : dict Path V) : Result V :=
  match (match o with OPath p => get p d | OStr _ => None end) with
  | Some v => Ok v
  | None => Raise (mkExc OtherException "KeyError")
  end.

(** The external branch of [_check_import] (from [# Check as external
    import] on). *)
Definition check_external (env : Env) (file_path : Path) (import_path : string)
  : Result (option ImportIssue) :=
  rbind (Utils.validate_import env import_path (Some (str_of_path file_path)))
    (fun error =>
       match error with
       | Some msg =>
           if truthy msg then Ok (Some (mkIssue file_path import_path msg "EXTERNAL"))
           else Ok None
       | None => Ok None
       end).

(** [LinterManager._check_import].  In
    [self.root_path / "/".join(module_parts) + ".py"] the division binds
    tighter than the sum: the operands of [+] are the joined path and the
    string [".py"]. *)
Definition _check_import (env : Env) (m : LinterManager) (file_path : Path)
    (import_path : string) : Result (option ImportIssue) :=
  let parts := split "." import_path in
  match parts with
  | [] => Ok None
  | _ :: _ =>
      let attr_name := List.last parts "" in
      let module_parts := removelast parts in
      match module_parts with
      | [] => check_external env file_path import_path
      | _ :: _ =>
          let possible_file :=
            truediv (truediv (root_path m) (join "/" module_parts))
                    (attr_name +:+ ".py") in
          if mem possible_file (file_imports m) then Ok None
          else
            let possible_file :=
              truediv (truediv (root_path m) (join "/" (module_parts ++ [attr_name])))
                      "__init__.py" in
            if exists_ env possible_file then Ok None
            else
              rbind (rbind (op_truediv (OPath (root_path m))
                                       (OStr (join "/" module_parts)))
                           (fun joined => op_add joined (OStr ".py")))
                (fun module_file =>
                   if obj_mem module_file (module_defs m) then
                     rbind (obj_get module_file (module_defs m)) (fun defs =>
                       if negb (bool_decide (attr_name ∈ defs)) then
                         Ok (Some (mkIssue file_path import_path
                                     ("'" +:+ join "." module_parts +:+
                                      "' does not define '" +:+ attr_name +:+ "'")
                                     "UNDEFINED"))
                       else Ok None)
                   else check_external env file_path import_path)
      end
  end.

(** The body of the inner loop of [_validate_imports]. *)
Definition validate_one (env : Env) (file_path : Path) (imp : string) : M unit :=
  let* m := get_self in
  let* issue := lift (_check_import env m file_path imp) in
  match issue with
  | Some i => modify (append_issue i)
  | None => ret tt
  end.

(** [LinterManager._validate_imports] *)
Definition _validate_imports (env : Env) : M unit :=
  let* m := get_self in
  for_ (file_imports m) (fun '(file_path, imports) =>
    for_ (set_iter env imports) (validate_one env file_path)).

(** [LinterManager.run] *)
Definition run (env : Env) : M (list ImportIssue) :=
  let* m := get_self in
  if negb (exists_ env (root_path m)) then
    raise (mkExc FileNotFoundError ("Path not found: " +:+ str_of_path (root_path m)))
  else
    _collect_files env >>
    _validate_imports env >>
    let* m' := get_self in
    ret (issues m').

End Manager.

(* ===================================================================== *)
(** ** Vocabulary of the properties *)
(* ===================================================================== *)

Module Props.
Import Py Os Manager.

(** The two index maps of the manager have the same keys. *)
Definition index_consistent (m : LinterManager) : Prop :=
  ∀ q : Path, q ∈ keys (file_imports m) ↔ q ∈ keys (module_defs m).

(** What [+] raises between a path and a string. *)
Definition path_plus_str_error : PyExc :=
  mkExc TypeError "unsupported operand type(s) for +: 'PosixPath' and 'str'".

(** Two runs get the same answers from the module provider. *)
Definition same_provider (envA envB : Env) : Prop :=
  ∀ name,
    match import_module envA name, import_module envB name with
    | Ok a, Ok b => ∀ x, hasattr a x = hasattr b x
    | Raise e1, Raise e2 => e1 = e2
    | _, _ => False
    end.

(** Two runs find the same paths on disk. *)
Definition same_disk (envA envB : Env) : Prop :=
  ∀ p, exists_ envA p = exists_ envB p.

(** A process iterates a set over its elements, each once. *)
Definition iterates_elements (env : Env) : Prop :=
  ∀ s, set_iter env s ≡ₚ elements s.

(** Two runs iterate every import set of the index in the same order. *)
Definition same_iteration (envA envB : Env) (index : dict Path (gset string)) : Prop :=
  Forall (fun kv => set_iter envA kv.2 = set_iter envB kv.2) index.

(** Determinism from the sets alone: the same manager state, the same
    provider and disk, each run free to iterate its sets in its own order,
    and yet the same ordered issue list. *)
Definition issues_fixed_by_sets : Prop :=
  ∀ envA envB st,
    same_provider envA envB → same_disk envA envB →
    iterates_elements envA → iterates_elements envB →
    issues (self (_validate_imports envA st).2)
    = issues (self (_validate_imports envB st).2).

(** The issue, if any, that checking one import yields. *)
Definition checked_issue (env : Env) (m : LinterManager) (file_path : Path)
    (imp : string) : option ImportIssue :=
  match _check_import env m file_path imp with
  | Ok (Some i) => Some i
  | _ => None
  end.

(** Checking one import returns. *)
Definition check_returns (env : Env) (m : LinterManager) (file_path : Path)
    (imp : string) : Prop :=
  ∃ r, _check_import env m file_path imp = Ok r.

Definition add_issues (found : list ImportIssue) (m : LinterManager) : LinterManager :=
  mkManager (root_path m) (module_defs m) (file_imports m)
            (issues m ++ found) (excluded_dirs m) (auto_fix m).

(** The issues of one file of the index, in the order its imports are
    iterated, and the condition that checking each of them returns. *)
Definition file_issues (env : Env) (m : LinterManager) (kv : Path * gset string)
  : list ImportIssue :=
  omap (checked_issue env m kv.1) (set_iter env kv.2).

Definition file_returns (env : Env) (m : LinterManager) (kv : Path * gset string) : Prop :=
  Forall (check_returns env m kv.1) (set_iter env kv.2).

(** The module provider raises [err] while [validate_import] resolves
    [import_path]: in [import_module], or in [hasattr] on the module. *)
Definition provider_raises (env : Env) (import_path : string) (err : PyExc) : Prop :=
  let module_path := (Utils.split_module_attr import_path).1 in
  let attr_name := (Utils.split_module_attr import_path).2 in
  import_module env module_path = Raise err ∨
  ∃ module, import_module env module_path = Ok module ∧
            truthy attr_name = true ∧ hasattr module attr_name = Raise err.

(** The issue built from a provider failure. *)
Definition external_issue (file_path : Path) (import_path : string) (err : PyExc)
  : ImportIssue :=
  mkIssue file_path import_path
          ("Import error for '" +:+ import_path +:+ "': " +:+ exc_str err)
          "EXTERNAL".

(** The records [_analyze_file] logs before it opens the file. *)
Definition cleanup_records (env : Env) (m : LinterManager) (p : Path) : list LogRecord :=
  if auto_fix m then (Utils.pre_cleanup_with_ruff env p).2 else [].

(** The cleanup step, when enabled, returns. *)
Definition cleanup_returns (env : Env) (m : LinterManager) (p : Path) : Prop :=
  auto_fix m = true → ∃ b, (Utils.pre_cleanup_with_ruff env p).1 = Ok b.

(** The record logged for a file that does not parse. *)
Definition syntax_warning (p : Path) (err : PyExc) : LogRecord :=
  mkLog WARNING ("Syntax error in " +:+ str_of_path p +:+ ": " +:+ exc_str err).

End Props.

(* ===================================================================== *)
(** ** Small projects to run the model on *)
(* ===================================================================== *)

Module Fixtures.
Import Py Ast Os Manager.

Definition no_module (name : string) : Result ModuleObj :=
  Raise (mkExc ModuleNotFoundError ("No module named '" +:+ name +:+ "'")).

(** A provider that knows [os] and its attribute [path], and a module
    [broken] whose import raises a [ValueError]. *)
Definition some_modules (name : string) : Result ModuleObj :=
  if String.eqb name "os" then Ok (mkModule (fun a => Ok (String.eqb a "path")))
  else if String.eqb name "broken" then Raise (mkExc OtherException "bad value")
  else no_module name.

Definition no_ruff (command : list string) : Result nat :=
  Raise (mkExc FileNotFoundError "[Errno 2] No such file or directory: 'ruff'").

(** A machine whose tree is [/proj] with the given entries. *)
Definition project_env (project : list (string * fsnode))
    (order : gset string -> list string)
    (importer : string -> Result ModuleObj) : Env :=
  mkEnv (FsDir [("proj", FsDir project)]) [] "linux" order importer no_ruff.

(** [LinterManager("/proj")] before [run]. *)
Definition fresh (env : Env) : State := mkState (init env "/proj" None false) [].

(** [pkg/mod.py] defines [foo]; [app.py] holds
    [from pkg.mod import foo, bar]. *)
Definition pkg_project : list (string * fsnode) :=
  [("app.py", FsFile (Ok [ImportFrom (Some "pkg.mod")
                            [mk_alias "foo" None; mk_alias "bar" None] 0]));
   ("pkg", FsDir [("mod.py", FsFile (Ok [FunctionDef "foo" []]))])].

Definition pkg_env : Env := project_env pkg_project elements no_module.

Definition pkg_indexed : State := (_collect_files pkg_env (fresh pkg_env)).2.

(** [app.py] holds [import a_missing, b_missing]. *)
Definition two_missing : list (string * fsnode) :=
  [("app.py", FsFile (Ok [Import [mk_alias "a_missing" None;
                                  mk_alias "b_missing" None]]))].

Definition forward_env : Env := project_env two_missing elements no_module.

Definition backward_env : Env :=
  project_env two_missing (fun s => reverse (elements s)) no_module.

Definition two_missing_indexed : State :=
  (_collect_files forward_env (fresh forward_env)).2.

(** Another machine with the same tree and provider: another platform,
    [ruff] installed, and another order on sets of three and more. *)
Definition forward_env' : Env :=
  mkEnv (fs_root forward_env) ["home"] "darwin"
        (fun s => if bool_decide (size s ≤ 2)%nat then elements s
                  else reverse (elements s))
        no_module (fun _ => Ok 0).

(** [valid.py] holds [import os]; [invalid.py] holds [def broken(]. *)
Definition invalid_error : PyExc :=
  mkExc SyntaxError "'(' was never closed (invalid.py, line 1)".

Definition with_invalid : list (string * fsnode) :=
  [("invalid.py", FsFile (Raise invalid_error));
   ("valid.py", FsFile (Ok [Import [mk_alias "os" None]]))].

Definition invalid_env : Env := project_env with_invalid elements some_modules.

(** [nul.py] holds a NUL byte, which [ast.parse] refuses with a
    [ValueError] before Python 3.12; [valid.py] as above. *)
Definition nul_error : PyExc :=
  mkExc OtherException "source code string cannot contain null bytes".

Definition with_nul : list (string * fsnode) :=
  [("nul.py", FsFile (Raise nul_error));
   ("valid.py", FsFile (Ok [Import [mk_alias "os" None]]))].

Definition nul_env : Env := project_env with_nul elements some_modules.

(** The project with [invalid.py] on a machine where [ruff] is there but
    may not be executed ([PermissionError]), and a manager with auto-fix
    on. *)
Definition denied_ruff (command : list string) : Result nat :=
  Raise (mkExc OtherException "[Errno 13] Permission denied: 'ruff'").

Definition fixing_env : Env :=
  mkEnv (FsDir [("proj", FsDir with_invalid)]) [] "linux" elements some_modules
        denied_ruff.

Definition fixing : State := mkState (init fixing_env "/proj" None true) [].

(** [app.py] holds [import broken]. *)
Definition broken_project : list (string * fsnode) :=
  [("app.py", FsFile (Ok [Import [mk_alias "broken" None]]))].

Definition broken_env : Env := project_env broken_project elements some_modules.

(** [app.py] holds [import legacy_tool], a module that calls [sys.exit]
    when it is imported. *)
Definition exit_request : PyExc := mkExc NonException "usage: legacy_tool FILE".

Definition exiting_modules (name : string) : Result ModuleObj :=
  if String.eqb name "legacy_tool" then Raise exit_request else no_module name.

Definition exiting_project : list (string * fsnode) :=
  [("app.py", FsFile (Ok [Import [mk_alias "legacy_tool" None]]))].

Definition exiting_env : Env := project_env exiting_project elements exiting_modules.

(** A machine without [/proj]. *)
Definition empty_env : Env := mkEnv (FsDir []) [] "linux" elements no_module no_ruff.

End Fixtures.

(* ===================================================================== *)

(* ===================================================================== *)
(** ** Vocabulary of the further properties *)
(* ===================================================================== *)

Module Laws.
Import Py Os.

(** The union of what two visitors hold. *)
Definition merge (a b : Visitor.ImportsVisitor) : Visitor.ImportsVisitor :=
  Visitor.mkVisitor
    (Visitor.imported_modules a ∪ Visitor.imported_modules b)
    (Visitor.module_defs a ∪ Visitor.module_defs b).

(** A visitor method that only adds: what it yields from any state is what
    it yields from a fresh visitor, joined with that state. *)
Definition additive (f : Visitor.ImportsVisitor → Visitor.ImportsVisitor) : Prop :=
  ∀ v, f v = merge (f Visitor.init) v.

(** The command line [pre_cleanup_with_ruff] runs on a file. *)
Definition ruff_command (path : Path) : list string :=
  ["ruff"; "check"; str_of_path path; "--fix"].

(** What the extractor records from a tree, starting from nothing. *)
Definition extract (tree : Ast.module_) : Visitor.ImportsVisitor :=
  Visitor.visit_Module tree Visitor.init.

(** The record logged for a file that cannot be analysed for another
    reason than its syntax. *)
Definition analysis_error (p : Path) (err : PyExc) : LogRecord :=
  mkLog ERROR ("Error analyzing " +:+ str_of_path p +:+ ": " +:+ exc_str err).

(** The record logged for a file whose reading or parsing raised an
    [Exception]: a warning for a [SyntaxError], an error otherwise. *)
Definition failure_record (p : Path) (err : PyExc) : LogRecord :=
  if is_class SyntaxError err then Props.syntax_warning p err else analysis_error p err.

(** The paths [_collect_files] hands to [_analyze_file], in order: the root
    itself when it is a file; for a directory, every file name ending in
    [.py] of every directory the walk yields. *)
Definition collected_paths (env : Env) (m : Manager.LinterManager) : list Path :=
  if is_file env (Manager.root_path m) then [Manager.root_path m]
  else if is_dir env (Manager.root_path m) then
    match stat env (Manager.root_path m) with
    | Some top =>
        flat_map (fun '(dirpath, _, filenames) =>
                    truediv dirpath <$> List.filter (fun f => endswith f ".py") filenames)
                 (walk (Manager.keep_dir env m) (Manager.root_path m) top)
    | None => []
    end
  else [].

(** A segment of a dotted path that [pathlib] takes as one path component:
    not empty and without a slash. *)
Definition plain_segment (s : string) : Prop := s ≠ "" ∧ contains "/" s = false.

(** A piece of text that [pathlib] keeps as one path component. *)
Definition component (s : string) : Prop :=
  s ≠ "" ∧ s ≠ "." ∧ contains "/" s = false.

End Laws.

(** * Properties *)
(* ===================================================================== *)

(** ** The extractor *)

Section VisitorFacts.
Import Ast Visitor.

(** Below an expression the traversal changes neither set. *)
Lemma generic_visit_expr_id (e : expr) : ∀ v, generic_visit_expr e v = v.
Proof.
  revert e. fix IH 1. intros e v.
  assert (Hlist : ∀ es w,
             fold_left (fun acc c => generic_visit_expr c acc) es w = w).
  { clear v. fix IHl 1. intros [|c es] w; simpl.
    - reflexivity.
    - rewrite (IH c w). apply IHl. }
  destruct e as [id|elts|elts|x|x a|x i|elts]; simpl.
  - reflexivity.
  - apply Hlist.
  - apply Hlist.
  - apply IH.
  - apply IH.
  - rewrite (IH x v). apply IH.
  - apply Hlist.
Qed.

Lemma generic_visit_exprs_id (es : list expr) (v : ImportsVisitor) :
  generic_visit_exprs es v = v.
Proof.
  unfold generic_visit_exprs. revert v.
  induction es as [|c es IH]; intros v; simpl; [reflexivity|].
  rewrite generic_visit_expr_id. apply IH.
Qed.

(** *** [visit_Import] *)

Lemma visit_Import_names_defs (names : list alias) (v : ImportsVisitor) :
  module_defs (visit_Import_names names v) = module_defs v.
Proof.
  unfold visit_Import_names. revert v.
  induction names as [|a names IH]; intros v; simpl; [reflexivity|].
  by rewrite IH.
Qed.

Lemma visit_Import_names_imports (names : list alias) (v : ImportsVisitor) (p : string) :
  p ∈ imported_modules (visit_Import_names names v)
  ↔ p ∈ imported_modules v ∨ p ∈ name <$> names.
Proof.
  unfold visit_Import_names. revert v.
  induction names as [|a names IH]; intros v; simpl.
  - rewrite elem_of_nil. tauto.
  - rewrite IH, elem_of_cons. simpl. rewrite elem_of_union, elem_of_singleton. tauto.
Qed.

(** C10. [import X as y] records the dotted path [X] as written, and
    nothing else: the imported paths gain exactly [X], the defined names
    are unchanged, and from a fresh visitor the imported paths are [X]
    alone, so neither a prefix of [X] nor the alias [y] enters either set. *)
Theorem visit_Import_aliased (X y : string) (v : ImportsVisitor) :
  imported_modules (visit (Import [mk_alias X (Some y)]) v)
  = {[X]} ∪ imported_modules v ∧
  module_defs (visit (Import [mk_alias X (Some y)]) v) = module_defs v ∧
  (∀ p, p ∈ imported_modules (visit (Import [mk_alias X (Some y)]) init) ↔ p = X) ∧
  module_defs (visit (Import [mk_alias X (Some y)]) init) = ∅.
Proof.
  split; [reflexivity|]. split; [reflexivity|]. split; [|reflexivity].
  intros p. simpl. rewrite elem_of_union, elem_of_singleton, elem_of_empty. tauto.
Qed.

(** *** [visit_ImportFrom] *)

Lemma truthy_nonempty (s : string) : s ≠ "" → Py.truthy s = true.
Proof. destruct s; [done|reflexivity]. Qed.

(** C4. [from M import *] with a non-empty [M] records [M] and nothing
    else; under a relative import without a module name (or with an empty
    one) the wildcard records nothing. *)
Theorem visit_ImportFrom_star (M : string) (asn : option string) (level : nat)
    (v : ImportsVisitor) :
  M ≠ "" →
  visit (ImportFrom (Some M) [mk_alias "*" asn] level) v
  = mkVisitor ({[M]} ∪ imported_modules v) (module_defs v) ∧
  visit (ImportFrom None [mk_alias "*" asn] level) v = v ∧
  visit (ImportFrom (Some "") [mk_alias "*" asn] level) v = v.
Proof.
  intros HM. split; [|split; reflexivity].
  simpl. unfold visit_ImportFrom_alias; simpl.
  by rewrite (truthy_nonempty M HM).
Qed.

(** C5. [from . import x] (no module name, [x] not the wildcard) records
    the bare name [x] and nothing else. *)
Theorem visit_ImportFrom_bare_relative (x : string) (asn : option string)
    (level : nat) (v : ImportsVisitor) :
  x ≠ "*" →
  visit (ImportFrom None [mk_alias x asn] level) v
  = mkVisitor ({[x]} ∪ imported_modules v) (module_defs v).
Proof.
  intros Hx. simpl. unfold visit_ImportFrom_alias; simpl.
  apply String.eqb_neq in Hx. by rewrite Hx.
Qed.

(** *** [visit_Assign] *)

Lemma visit_Assign_elt_imports (e : expr) (v : ImportsVisitor) :
  imported_modules (visit_Assign_elt e v) = imported_modules v.
Proof. destruct e; reflexivity. Qed.

Lemma visit_Assign_elt_defs (e : expr) (v : ImportsVisitor) (x : string) :
  x ∈ module_defs (visit_Assign_elt e v) ↔ x ∈ module_defs v ∨ e = Name x.
Proof.
  destruct e; simpl; try (split; [auto | intros [?|?]; [assumption|discriminate]]).
  rewrite elem_of_union, elem_of_singleton. split.
  - intros [->|?]; auto.
  - intros [?|[= ->]]; auto.
Qed.

Lemma visit_Assign_elts_imports (elts : list expr) (v : ImportsVisitor) :
  imported_modules (fold_left (fun acc e => visit_Assign_elt e acc) elts v)
  = imported_modules v.
Proof.
  revert v. induction elts as [|e elts IH]; intros v; simpl; [reflexivity|].
  rewrite IH. apply visit_Assign_elt_imports.
Qed.

Lemma visit_Assign_elts_defs (elts : list expr) (v : ImportsVisitor) (x : string) :
  x ∈ module_defs (fold_left (fun acc e => visit_Assign_elt e acc) elts v)
  ↔ x ∈ module_defs v ∨ Name x ∈ elts.
Proof.
  revert v. induction elts as [|e elts IH]; intros v; simpl.
  - rewrite elem_of_nil. tauto.
  - rewrite IH, visit_Assign_elt_defs, elem_of_cons. intuition congruence.
Qed.

Lemma visit_Assign_target_imports (t : expr) (v : ImportsVisitor) :
  imported_modules (visit_Assign_target t v) = imported_modules v.
Proof. destruct t; simpl; try reflexivity. apply visit_Assign_elts_imports. Qed.

Lemma visit_Assign_target_defs (t : expr) (v : ImportsVisitor) (x : string) :
  x ∈ module_defs (visit_Assign_target t v)
  ↔ x ∈ module_defs v ∨ t = Name x ∨ ∃ elts, t = Tuple elts ∧ Name x ∈ elts.
Proof.
  destruct t as [id|elts|elts|y|y a|y i|elts]; simpl;
    try (split; [auto | intros [?|[?|(? & ? & ?)]]; [assumption|discriminate..]]).
  - rewrite elem_of_union, elem_of_singleton. split.
    + intros [->|?]; auto.
    + intros [?|[[= ->]|(? & ? & ?)]]; [auto|auto|discriminate].
  - rewrite visit_Assign_elts_defs. split.
    + intros [?|?]; eauto.
    + intros [?|[?|(? & [= <-] & ?)]]; [auto|discriminate|auto].
Qed.

Lemma visit_Assign_targets_imports (targets : list expr) (v : ImportsVisitor) :
  imported_modules (visit_Assign_targets targets v) = imported_modules v.
Proof.
  unfold visit_Assign_targets. revert v.
  induction targets as [|t ts IH]; intros v; simpl; [reflexivity|].
  rewrite IH. apply visit_Assign_target_imports.
Qed.

Lemma visit_Assign_targets_defs (targets : list expr) (v : ImportsVisitor) (x : string) :
  x ∈ module_defs (visit_Assign_targets targets v)
  ↔ x ∈ module_defs v ∨ Name x ∈ targets
    ∨ ∃ elts, Tuple elts ∈ targets ∧ Name x ∈ elts.
Proof.
  unfold visit_Assign_targets. revert v.
  induction targets as [|t ts IH]; intros v; simpl.
  - split; [auto|]. intros [?|[H|(? & H & ?)]]; [assumption|..];
      apply elem_of_nil in H; destruct H.
  - rewrite IH, visit_Assign_target_defs. setoid_rewrite elem_of_cons. split.
    + intros [[?|[->|(elts & -> & ?)]]|[?|(elts & ? & ?)]]; eauto 8.
    + intros [?|[[[= <-]|?]|(elts & [<-|?] & ?)]]; eauto 8.
Qed.

(** The trailing [generic_visit] of [visit_Assign] meets expressions only. *)
Lemma visit_Assign_unfold (targets : list expr) (value : expr) (v : ImportsVisitor) :
  visit (Assign targets value) v = visit_Assign_targets targets v.
Proof. simpl. rewrite generic_visit_exprs_id. apply generic_visit_expr_id. Qed.

(** C3, as the code has it. An assignment leaves the imported paths alone
    and adds to the defined names exactly the names that are targets
    themselves and the names that are direct elements of a tuple target.
    Targets of any other kind (a bracketed list of names, an attribute, a
    subscript) add nothing. After [a, b = 1, 2] both [a] and [b] are
    defined. *)
Theorem visit_Assign_defined_names (targets : list expr) (value : expr)
    (v : ImportsVisitor) :
  imported_modules (visit (Assign targets value) v) = imported_modules v ∧
  (∀ x, x ∈ module_defs (visit (Assign targets value) v) ↔
        x ∈ module_defs v ∨ Name x ∈ targets
        ∨ ∃ elts, Tuple elts ∈ targets ∧ Name x ∈ elts) ∧
  (Forall (fun t => (∃ elts, t = ListDisplay elts) ∨ (∃ o a, t = Attribute o a)
                    ∨ (∃ o i, t = Subscript o i)) targets →
   module_defs (visit (Assign targets value) v) = module_defs v) ∧
  (∀ one two,
     {["a"; "b"]} ⊆ module_defs (visit (Assign [Tuple [Name "a"; Name "b"]]
                                              (Tuple [one; two])) init)).
Proof.
  rewrite visit_Assign_unfold. repeat split.
  - apply visit_Assign_targets_imports.
  - by apply visit_Assign_targets_defs.
  - by apply visit_Assign_targets_defs.
  - intros Hkinds. apply set_eq. intros x.
    rewrite visit_Assign_targets_defs. split; [|auto].
    rewrite Forall_forall in Hkinds.
    intros [?|[Hin|(elts & Hin & _)]]; [assumption|..];
      destruct (Hkinds _ Hin) as [(? & ?)|[(? & ? & ?)|(? & ? & ?)]]; discriminate.
  - intros one two x Hx. rewrite visit_Assign_unfold.
    simpl. set_solver.
Qed.

(** C3, counterexample. [[a, b] = 1, 2] destructures a sequence into the
    names [a] and [b], and neither is recorded. *)
Lemma visit_Assign_list_target_unrecorded :
  ("a" ∉ module_defs (visit (Assign [ListDisplay [Name "a"; Name "b"]]
                                    (Tuple [OtherExpr []; OtherExpr []])) init)) ∧
  ("b" ∉ module_defs (visit (Assign [ListDisplay [Name "a"; Name "b"]]
                                    (Tuple [OtherExpr []; OtherExpr []])) init)).
Proof. split; simpl; apply not_elem_of_empty. Qed.

End VisitorFacts.

Section VisitorRuns.
Import Ast Visitor.

Lemma visit_ImportFrom_star_witness :
  "os" ≠ "" ∧
  visit (ImportFrom (Some "os") [mk_alias "*" None] 0) init
  = mkVisitor ({["os"]} ∪ imported_modules init) (module_defs init) ∧
  visit (ImportFrom None [mk_alias "*" None] 0) init = init ∧
  visit (ImportFrom (Some "") [mk_alias "*" None] 0) init = init.
Proof.
  split; [discriminate|].
  apply (visit_ImportFrom_star "os" None 0 init). discriminate.
Defined.

Lemma visit_ImportFrom_bare_relative_witness :
  "config" ≠ "*" ∧
  visit (ImportFrom None [mk_alias "config" None] 1) init
  = mkVisitor ({["config"]} ∪ imported_modules init) (module_defs init).
Proof.
  split; [discriminate|].
  apply (visit_ImportFrom_bare_relative "config" None 1 init). discriminate.
Defined.

(** The cases of the package's own visitor tests. *)

Example visit_import_dotted :
  imported_modules (visit_Module [Import [mk_alias "a.b.c" None]] init) = {["a.b.c"]}.
Proof. vm_compute. reflexivity. Qed.

Example visit_from_import_multiple :
  imported_modules
    (visit_Module [ImportFrom (Some "os")
                     [mk_alias "path" None; mk_alias "getcwd" None] 0] init)
  = {["os.path"; "os.getcwd"]}.
Proof. vm_compute. reflexivity. Qed.

Example visit_relative_with_module :
  imported_modules
    (visit_Module [ImportFrom (Some "utils") [mk_alias "helper" None] 1] init)
  = {["utils.helper"]}.
Proof. vm_compute. reflexivity. Qed.

Example visit_nested_definitions :
  module_defs
    (visit_Module [ClassDef "Outer" [ClassDef "Inner" [OtherStmt [] []];
                                     FunctionDef "method" [OtherStmt [] []]];
                   Assign [Name "MY_VAR"] (OtherExpr []);
                   AsyncFunctionDef "loader" [OtherStmt [] []]] init)
  = {["Outer"; "Inner"; "method"; "MY_VAR"; "loader"]}.
Proof. vm_compute. reflexivity. Qed.

Example visit_empty_file : visit_Module [] init = init.
Proof. reflexivity. Qed.

End VisitorRuns.

(** ** The index builder *)

Section DictFacts.
  Import Py.
Context {K V : Type} `{EqDecision K}.

Lemma elem_of_keys_set (q k : K) (v : V) (d : dict K V) :
  q ∈ keys (set k v d) ↔ q = k ∨ q ∈ keys d.
Proof.
  unfold keys. induction d as [|[k' v'] d IH]; simpl.
  - rewrite list_elem_of_singleton, elem_of_nil. tauto.
  - destruct (decide (k' = k)) as [->|Hne]; simpl.
    + rewrite !elem_of_cons. tauto.
    + rewrite !elem_of_cons, IH. tauto.
Qed.

Lemma mem_keys (k : K) (d : dict K V) : mem k d = true ↔ k ∈ keys d.
Proof.
  unfold mem, keys. rewrite bool_decide_eq_true.
  induction d as [|[k' v'] d IH]; simpl.
  - rewrite elem_of_nil. split; [intros [? [=]]|tauto].
  - rewrite elem_of_cons. destruct (decide (k' = k)) as [->|Hne].
    + split; eauto.
    + rewrite IH. split; [tauto|]. intros [->|?]; [congruence|assumption].
Qed.

Lemma get_set_eq (k : K) (v : V) (d : dict K V) : get k (set k v d) = Some v.
Proof.
  induction d as [|[k' v'] d IH]; simpl.
  - by rewrite decide_True.
  - destruct (decide (k' = k)) as [->|Hne]; simpl.
    + by rewrite decide_True.
    + by rewrite decide_False.
Qed.
End DictFacts.

Section IndexFacts.
Import Py Os Manager Props.

(** Unfolding of the state-passing combinators. *)
Ltac run_m :=
  unfold bind, ret, raise, lift, get_self, emit, modify.

(** A property of the state that every turn of a loop preserves holds
    after the loop, however it ends. *)
Lemma for_preserves {X} (P : State → Prop) (xs : list X) (body : X → M unit) :
  (∀ x st, P st → P (body x st).2) →
  ∀ st, P st → P (for_ xs body st).2.
Proof.
  intros Hbody. induction xs as [|x xs IH]; intros st Hst; simpl; [done|].
  unfold bind. specialize (Hbody x st Hst).
  destruct (body x st) as [[[]|e] st']; simpl in *; [by apply IH|done].
Qed.

Lemma set_index_consistent (p : Path) (a : Analyzer.PythonFileAnalyzer)
    (m : LinterManager) :
  index_consistent m → index_consistent (set_index p a m).
Proof.
  intros Hm q. unfold set_index; simpl.
  rewrite !elem_of_keys_set, (Hm q). reflexivity.
Qed.

(** Every outcome of [_analyze_file] leaves the manager as it was, or
    stores the two records of the file. *)
Lemma analyze_file_self (env : Env) (p : Path) (st : State) :
  self (_analyze_file env p st).2 = self st ∨
  ∃ a, Analyzer.analyze env (Analyzer.init p) = Ok a ∧
       self (_analyze_file env p st).2 = set_index p a (self st).
Proof.
  unfold _analyze_file. run_m.
  destruct (auto_fix (self st)); simpl.
  - destruct (Utils.pre_cleanup_with_ruff env p) as [[b|e] records]; simpl;
      [|left; reflexivity].
    destruct (Analyzer.analyze env (Analyzer.init p)) as [a|err]; simpl;
      [right; eauto|].
    destruct (is_class SyntaxError err); [left; reflexivity|].
    destruct (is_Exception err); left; reflexivity.
  - destruct (Analyzer.analyze env (Analyzer.init p)) as [a|err]; simpl;
      [right; eauto|].
    destruct (is_class SyntaxError err); [left; reflexivity|].
    destruct (is_Exception err); left; reflexivity.
Qed.

(** C9. Whatever the outcome of analysing one file (both records stored, a
    parse failure, another failure, an exception let through), the two
    index maps have the same keys afterwards if they had before; the file
    contributed both of its records or neither. *)
Theorem analyze_file_keeps_index_consistent (env : Env) (p : Path) (st : State) :
  index_consistent (self st) →
  index_consistent (self (_analyze_file env p st).2) ∧
  ((file_imports (self (_analyze_file env p st).2) = file_imports (self st) ∧
    module_defs (self (_analyze_file env p st).2) = module_defs (self st))
   ∨ ∃ a, file_imports (self (_analyze_file env p st).2)
          = set p (Analyzer.imported_modules a) (file_imports (self st)) ∧
          module_defs (self (_analyze_file env p st).2)
          = set p (Analyzer.module_defs a) (module_defs (self st))).
Proof.
  intros Hc. destruct (analyze_file_self env p st) as [->|(a & _ & ->)].
  - split; [exact Hc|]. left. split; reflexivity.
  - split; [by apply set_index_consistent|]. right. exists a. split; reflexivity.
Qed.

Lemma analyze_file_keeps_index_consistent_witness :
  index_consistent (self (Fixtures.fresh Fixtures.pkg_env)) ∧
  index_consistent
    (self (_analyze_file Fixtures.pkg_env ["proj"; "app.py"]
                         (Fixtures.fresh Fixtures.pkg_env)).2).
Proof.
  assert (H0 : index_consistent (self (Fixtures.fresh Fixtures.pkg_env))).
  { intros q. simpl. reflexivity. }
  split; [exact H0|].
  exact (proj1 (analyze_file_keeps_index_consistent
                  Fixtures.pkg_env ["proj"; "app.py"]
                  (Fixtures.fresh Fixtures.pkg_env) H0)).
Defined.

(** The invariant carries through the whole collection phase. *)
Lemma analyze_file_consistent (env : Env) (p : Path) (st : State) :
  index_consistent (self st) → index_consistent (self (_analyze_file env p st).2).
Proof.
  intros Hc. destruct (analyze_file_self env p st) as [->|(a & _ & ->)];
    [exact Hc | by apply set_index_consistent].
Qed.

Lemma analyze_filenames_consistent (env : Env) (dirpath : Path)
    (filenames : list string) (st : State) :
  index_consistent (self st) →
  index_consistent (self (analyze_filenames env dirpath filenames st).2).
Proof.
  unfold analyze_filenames.
  apply (for_preserves (fun st => index_consistent (self st))).
  intros filename st' Hst'. destruct (endswith filename ".py"); [|exact Hst'].
  by apply analyze_file_consistent.
Qed.

Lemma collect_files_consistent (env : Env) (st : State) :
  index_consistent (self st) →
  index_consistent (self (_collect_files env st).2).
Proof.
  intros Hc. unfold _collect_files. run_m.
  destruct (is_file env (root_path (self st))); [by apply analyze_file_consistent|].
  destruct (is_dir env (root_path (self st))); [|exact Hc].
  unfold _analyze_directory. run_m.
  destruct (stat env (root_path (self st))); [|exact Hc].
  apply (for_preserves (fun st => index_consistent (self st))); [|exact Hc].
  intros [[dirpath dirs] filenames] st' Hst'.
  by apply analyze_filenames_consistent.
Qed.

(** *** Files that do not parse *)

Lemma analyze_parse_failure (env : Env) (p : Path) (err : PyExc) :
  stat env p = Some (FsFile (Raise err)) →
  Analyzer.analyze env (Analyzer.init p) = Raise err.
Proof.
  intros Hstat. unfold Analyzer.analyze, Analyzer.read_and_parse; simpl.
  by rewrite Hstat.
Qed.

(** The run over a directory with one file that does not parse: the index
    holds the other file alone, one warning is logged, no issue is found. *)
Example run_with_invalid_file :
  let out := run Fixtures.invalid_env (Fixtures.fresh Fixtures.invalid_env) in
  out.1 = Ok [] ∧
  keys (file_imports (self out.2)) = [["proj"; "valid.py"]] ∧
  keys (module_defs (self out.2)) = [["proj"; "valid.py"]] ∧
  levelname <$> log out.2 = [WARNING].
Proof. vm_compute. repeat split. Qed.

(** *** A missing root *)

(** C8. When the root path does not exist, [run] raises
    [FileNotFoundError] and leaves the manager and the log exactly as
    [__init__] made them: no file was analysed, both index maps are empty
    and there is no issue. *)
Theorem run_missing_root (env : Env) (path : string) (excluded : option (gset string))
    (fix_ : bool) (records : list LogRecord) :
  exists_ env (root_path (init env path excluded fix_)) = false →
  run env (mkState (init env path excluded fix_) records)
  = (Raise (mkExc FileNotFoundError
              ("Path not found: " +:+
               str_of_path (root_path (init env path excluded fix_)))),
     mkState (init env path excluded fix_) records) ∧
  file_imports (init env path excluded fix_) = [] ∧
  module_defs (init env path excluded fix_) = [] ∧
  issues (init env path excluded fix_) = [].
Proof.
  intros Hmissing. unfold run. run_m.
  cbn [self negb]. by rewrite Hmissing.
Qed.

Lemma run_missing_root_witness :
  exists_ Fixtures.empty_env (root_path (init Fixtures.empty_env "/proj" None false))
  = false ∧
  run Fixtures.empty_env (mkState (init Fixtures.empty_env "/proj" None false) [])
  = (Raise (mkExc FileNotFoundError "Path not found: /proj"),
     mkState (init Fixtures.empty_env "/proj" None false) []).
Proof.
  split; [reflexivity|].
  refine (proj1 (run_missing_root Fixtures.empty_env "/proj" None false [] _)).
  reflexivity.
Defined.

End IndexFacts.

(** ** The resolver *)

Section ResolverFacts.
Import Py Os Manager Props.

Ltac run_m :=
  unfold bind, ret, raise, lift, get_self, emit, modify.

(** *** The local attribute match *)

(** [split] never yields the empty list. *)
Lemma split_nonempty (sep : ascii) (s : string) : split sep s ≠ [].
Proof.
  destruct s as [|c s]; simpl; [done|].
  destruct (Ascii.eqb c sep); [done|]. by destruct (split sep s).
Qed.

(** An import with a module part that names neither an indexed module file
    nor a package on disk reaches the sum of a path and a string, which
    raises: the lookup in [module_defs] is never made. *)
Lemma check_import_module_file_raises (env : Env) (m : LinterManager)
    (file_path : Path) (import_path : string) :
  removelast (split "." import_path) ≠ [] →
  mem (truediv (truediv (root_path m)
                        (join "/" (removelast (split "." import_path))))
               (List.last (split "." import_path) "" +:+ ".py"))
      (file_imports m) = false →
  exists_ env (truediv (truediv (root_path m)
                                (join "/" (removelast (split "." import_path)
                                           ++ [List.last (split "." import_path) ""])))
                       "__init__.py") = false →
  _check_import env m file_path import_path = Raise path_plus_str_error.
Proof.
  intros Hparts Hfile Hpkg. unfold _check_import.
  destruct (split "." import_path) as [|p0 ps] eqn:Eparts.
  { by apply split_nonempty in Eparts. }
  destruct (removelast (p0 :: ps)) as [|q0 qs] eqn:Emods; [done|].
  rewrite Hfile, Hpkg. reflexivity.
Qed.

(** C1, on the code. [pkg/mod.py] is indexed and defines [foo]; no file
    [pkg/mod/foo.py] is indexed and no package [pkg/mod/foo] exists.
    Checking [pkg.mod.foo] (defined) and [pkg.mod.bar] (not defined)
    raises [TypeError] in both cases, where a valid import and one
    UNDEFINED issue are expected, and so does the run of the project. *)
Theorem check_import_local_attribute_raises :
  (get ["proj"; "pkg"; "mod.py"] (module_defs (self Fixtures.pkg_indexed))
   = Some {["foo"]} ∧
   mem ["proj"; "pkg"; "mod"; "foo.py"] (file_imports (self Fixtures.pkg_indexed))
   = false ∧
   exists_ Fixtures.pkg_env ["proj"; "pkg"; "mod"; "foo"; "__init__.py"] = false) ∧
  _check_import Fixtures.pkg_env (self Fixtures.pkg_indexed)
                ["proj"; "app.py"] "pkg.mod.foo"
  = Raise path_plus_str_error ∧
  _check_import Fixtures.pkg_env (self Fixtures.pkg_indexed)
                ["proj"; "app.py"] "pkg.mod.bar"
  = Raise path_plus_str_error ∧
  (run Fixtures.pkg_env (Fixtures.fresh Fixtures.pkg_env)).1
  = Raise path_plus_str_error.
Proof. repeat split; vm_compute; reflexivity. Qed.

(** *** The external check *)

Lemma provider_raises_try (env : Env) (import_path : string)
    (source_file : option string) (err : PyExc) :
  provider_raises env import_path err →
  Utils.validate_import_try env (Utils.split_module_attr import_path).1
                            (Utils.split_module_attr import_path).2 source_file
  = Raise err.
Proof.
  unfold provider_raises, Utils.validate_import_try.
  intros [Himp|(module & Himp & Hattr & Hhas)]; rewrite Himp; simpl; [done|].
  by rewrite Hattr, Hhas.
Qed.

Lemma validate_import_failure (env : Env) (dotted_path : string)
    (source_file : option string) (err : PyExc) :
  truthy dotted_path = true →
  provider_raises env dotted_path err →
  is_Exception err = true →
  exc_class err ≠ ModuleNotFoundError →
  Utils.validate_import env dotted_path source_file
  = Ok (Some ("Import error for '" +:+ dotted_path +:+ "': " +:+ exc_str err)).
Proof.
  intros Hne Hraises Hexc Hcls. unfold Utils.validate_import.
  rewrite Hne, (provider_raises_try _ _ _ _ Hraises); simpl. unfold is_class.
  rewrite bool_decide_eq_false_2 by done. by rewrite Hexc.
Qed.

(** An import path without a dot goes straight to the external check. *)
Lemma check_import_dotless (env : Env) (m : LinterManager) (file_path : Path)
    (import_path : string) :
  removelast (split "." import_path) = [] →
  _check_import env m file_path import_path = check_external env file_path import_path.
Proof.
  intros Hmods. unfold _check_import. rewrite Hmods.
  destruct (split "." import_path) eqn:E; [|done].
  by apply split_nonempty in E.
Qed.

(** What no handler of [validate_import] catches goes through. *)
Lemma validate_import_lets_through (env : Env) (dotted_path : string)
    (source_file : option string) (err : PyExc) :
  truthy dotted_path = true →
  provider_raises env dotted_path err →
  is_Exception err = false →
  Utils.validate_import env dotted_path source_file = Raise err.
Proof.
  intros Hne Hraises Hexc. unfold Utils.validate_import.
  rewrite Hne, (provider_raises_try _ _ _ _ Hraises); simpl.
  unfold is_class, is_Exception in *.
  destruct (exc_class err); try discriminate. by rewrite bool_decide_eq_false_2.
Qed.

(** C7, as the code has it. The module provider raises, for an import
    handed to the external check, an exception other than
    [ModuleNotFoundError]. If it is an instance of [Exception], the check
    returns an EXTERNAL issue whose message carries the text of the
    exception, and nothing is raised; for an import path without a dot,
    which [_check_import] hands over directly, [_check_import] returns that
    issue and the loop body appends it to the issues and returns normally.
    If it lies outside [Exception], the check raises it again. *)
Theorem provider_failure_becomes_external_issue (env : Env) (file_path : Path)
    (import_path : string) (err : PyExc) :
  truthy import_path = true →
  provider_raises env import_path err →
  exc_class err ≠ ModuleNotFoundError →
  (is_Exception err = true →
   check_external env file_path import_path
   = Ok (Some (external_issue file_path import_path err)) ∧
   issue_type (external_issue file_path import_path err) = "EXTERNAL" ∧
   truthy (message (external_issue file_path import_path err)) = true ∧
   (removelast (split "." import_path) = [] →
    ∀ st,
      _check_import env (self st) file_path import_path
      = Ok (Some (external_issue file_path import_path err)) ∧
      validate_one env file_path import_path st
      = (Ok tt, mkState (append_issue (external_issue file_path import_path err)
                                      (self st))
                        (log st)))) ∧
  (is_Exception err = false →
   check_external env file_path import_path = Raise err).
Proof.
  intros Hne Hraises Hcls. split.
  - intros Hexc.
    assert (Hext : check_external env file_path import_path
                   = Ok (Some (external_issue file_path import_path err))).
    { unfold check_external.
      rewrite (validate_import_failure _ _ _ err) by done. reflexivity. }
    split; [exact Hext|]. split; [reflexivity|]. split; [reflexivity|].
    intros Hmods st.
    assert (Hchk : _check_import env (self st) file_path import_path
                   = Ok (Some (external_issue file_path import_path err))).
    { by rewrite check_import_dotless. }
    split; [exact Hchk|].
    unfold validate_one. run_m. by rewrite Hchk.
  - intros Hexc. unfold check_external.
    by rewrite (validate_import_lets_through _ _ _ err).
Qed.

Lemma provider_failure_becomes_external_issue_witness :
  check_external Fixtures.broken_env ["proj"; "app.py"] "broken"
  = Ok (Some (mkIssue ["proj"; "app.py"] "broken"
                      "Import error for 'broken': bad value" "EXTERNAL")).
Proof.
  refine (proj1 (proj1 (provider_failure_becomes_external_issue
                          Fixtures.broken_env ["proj"; "app.py"] "broken"
                          (mkExc OtherException "bad value") _ _ _) _)).
  - reflexivity.
  - left. reflexivity.
  - discriminate.
  - reflexivity.
Defined.

(** C7, counterexample. Importing [legacy_tool] raises [SystemExit]: the
    provider neither resolves the module nor reports it missing, the
    external check raises, and so does the run, with no issue recorded. *)
Lemma provider_exit_propagates :
  provider_raises Fixtures.exiting_env "legacy_tool" Fixtures.exit_request ∧
  check_external Fixtures.exiting_env ["proj"; "app.py"] "legacy_tool"
  = Raise Fixtures.exit_request ∧
  (run Fixtures.exiting_env (Fixtures.fresh Fixtures.exiting_env)).1
  = Raise Fixtures.exit_request ∧
  issues (self (run Fixtures.exiting_env (Fixtures.fresh Fixtures.exiting_env)).2)
  = [].
Proof.
  split; [left; reflexivity|]. repeat split; vm_compute; reflexivity.
Qed.

(** The run of a project whose only import makes the provider fail. *)
Example run_with_broken_module :
  (run Fixtures.broken_env (Fixtures.fresh Fixtures.broken_env)).1
  = Ok [mkIssue ["proj"; "app.py"] "broken"
                "Import error for 'broken': bad value" "EXTERNAL"].
Proof. vm_compute. reflexivity. Qed.

(** *** Determinism *)

(** C2, counterexample. One manager state, one provider, one disk; two
    processes that iterate the import set of [app.py] in opposite orders
    report the two issues in opposite orders. *)
Lemma validate_imports_order_sensitive : ¬ issues_fixed_by_sets.
Proof.
  intros Hclaim.
  specialize (Hclaim Fixtures.forward_env Fixtures.backward_env
                     Fixtures.two_missing_indexed).
  assert (Hne : issues (self (_validate_imports Fixtures.forward_env
                                Fixtures.two_missing_indexed).2)
                ≠ issues (self (_validate_imports Fixtures.backward_env
                                  Fixtures.two_missing_indexed).2)).
  { vm_compute. discriminate. }
  apply Hne, Hclaim.
  - intros name. simpl. reflexivity.
  - intros p. reflexivity.
  - intros s. reflexivity.
  - intros s. simpl. apply reverse_Permutation.
Qed.

Lemma for_ext {X} (xs : list X) (f g : X → M unit) :
  Forall (fun x => ∀ st, f x st = g x st) xs →
  ∀ st, for_ xs f st = for_ xs g st.
Proof.
  induction 1 as [|x xs Hx _ IH]; intros st; simpl; [done|].
  unfold bind. rewrite Hx. destruct (g x st) as [[[]|e] st']; [apply IH|done].
Qed.

Section TwoRuns.
Context (envA envB : Env).
Hypothesis Hprov : same_provider envA envB.
Hypothesis Hdisk : same_disk envA envB.

Lemma validate_import_try_ext module_path attr_name source_file :
  Utils.validate_import_try envA module_path attr_name source_file
  = Utils.validate_import_try envB module_path attr_name source_file.
Proof.
  unfold Utils.validate_import_try. specialize (Hprov module_path).
  destruct (import_module envA module_path) as [a|e1],
           (import_module envB module_path) as [b|e2]; simpl; try done.
  - by rewrite Hprov.
  - by subst.
Qed.

Lemma validate_import_ext dotted_path source_file :
  Utils.validate_import envA dotted_path source_file
  = Utils.validate_import envB dotted_path source_file.
Proof. unfold Utils.validate_import. by rewrite validate_import_try_ext. Qed.

Lemma check_external_ext file_path import_path :
  check_external envA file_path import_path
  = check_external envB file_path import_path.
Proof. unfold check_external. by rewrite validate_import_ext. Qed.

Lemma check_import_ext m file_path import_path :
  _check_import envA m file_path import_path
  = _check_import envB m file_path import_path.
Proof.
  unfold _check_import. rewrite check_external_ext.
  destruct (split "." import_path); [done|].
  destruct (removelast _); [done|]. by rewrite Hdisk.
Qed.

Lemma validate_one_ext file_path imp st :
  validate_one envA file_path imp st = validate_one envB file_path imp st.
Proof. unfold validate_one. run_m. by rewrite check_import_ext. Qed.
End TwoRuns.

(** C2, as the code has it. The same manager state, the same answers of
    the provider and of the disk, and the same iteration order on every
    import set of the index: the two runs of the resolver end alike, with
    the same outcome (return or the same exception), the same ordered issue
    list and the same log. *)
Theorem validate_imports_deterministic (envA envB : Env) (st : State) :
  same_provider envA envB →
  same_disk envA envB →
  same_iteration envA envB (file_imports (self st)) →
  _validate_imports envA st = _validate_imports envB st.
Proof.
  intros Hprov Hdisk Hiter. unfold _validate_imports. run_m.
  apply for_ext. eapply Forall_impl; [exact Hiter|].
  intros [file_path imports] Heq st'; simpl in *. rewrite Heq.
  apply for_ext, Forall_forall. intros imp _ st''. by apply validate_one_ext.
Qed.

Lemma validate_imports_deterministic_witness :
  _validate_imports Fixtures.forward_env Fixtures.two_missing_indexed
  = _validate_imports Fixtures.forward_env' Fixtures.two_missing_indexed.
Proof.
  apply (validate_imports_deterministic
           Fixtures.forward_env Fixtures.forward_env' Fixtures.two_missing_indexed).
  - intros name. simpl. reflexivity.
  - intros p. reflexivity.
  - repeat constructor.
Defined.

(** The resolver reads the index and never changes it. *)
Lemma validate_imports_keeps_index (env : Env) (st : State) :
  file_imports (self (_validate_imports env st).2) = file_imports (self st) ∧
  module_defs (self (_validate_imports env st).2) = module_defs (self st).
Proof.
  unfold _validate_imports. run_m.
  set (P := fun st' : State =>
              file_imports (self st') = file_imports (self st) ∧
              module_defs (self st') = module_defs (self st)).
  apply (for_preserves P); [|by split].
  intros [file_path imports] st1 H1.
  apply (for_preserves P); [|exact H1].
  intros imp st2 H2. unfold validate_one. run_m.
  destruct (_check_import env (self st2) file_path imp) as [[i|]|e]; simpl; exact H2.
Qed.

(** *** The issue list in closed form *)

(** [_check_import] reads the root and the two index maps only. *)
Lemma check_import_add_issues env found m file_path imp :
  _check_import env (add_issues found m) file_path imp = _check_import env m file_path imp.
Proof. reflexivity. Qed.

Lemma add_issues_nil m : add_issues [] m = m.
Proof. destruct m; unfold add_issues; simpl. by rewrite app_nil_r. Qed.

Lemma append_issue_add_issues i found m :
  append_issue i (add_issues found m) = add_issues (found ++ [i]) m.
Proof. unfold append_issue, add_issues; simpl. by rewrite app_assoc. Qed.

Lemma validate_file_returns env m file_path (imps : list string) found records :
  Forall (check_returns env m file_path) imps →
  for_ imps (validate_one env file_path) (mkState (add_issues found m) records)
  = (Ok tt, mkState (add_issues (found ++ omap (checked_issue env m file_path) imps) m)
                    records).
Proof.
  intros Hall. revert found. induction Hall as [|imp imps [r Hr] _ IH]; intros found; simpl.
  - by rewrite app_nil_r.
  - unfold bind at 1. unfold validate_one at 1. run_m. cbn [self log].
    rewrite check_import_add_issues. unfold checked_issue at 1. rewrite Hr.
    destruct r as [i|]; simpl.
    + rewrite append_issue_add_issues, IH. by rewrite <- app_assoc.
    + apply IH.
Qed.

Lemma validate_file_raises env m file_path (imps : list string) found records :
  (for_ imps (validate_one env file_path) (mkState (add_issues found m) records)).1 = Ok tt →
  Forall (check_returns env m file_path) imps.
Proof.
  revert found. induction imps as [|imp imps IH]; intros found; simpl; [constructor|].
  unfold bind at 1. unfold validate_one at 1. run_m. cbn [self log].
  rewrite check_import_add_issues.
  destruct (_check_import env m file_path imp) as [r|e] eqn:Hr; simpl; [|done].
  intros Hrest. constructor; [by exists r|].
  destruct r as [i|]; simpl in Hrest.
  - rewrite append_issue_add_issues in Hrest. by eapply IH.
  - by eapply IH.
Qed.

Lemma validate_index_returns env m (index : dict Path (gset string)) found records :
  Forall (file_returns env m) index →
  for_ index (fun '(file_path, imports) =>
                for_ (set_iter env imports) (validate_one env file_path))
       (mkState (add_issues found m) records)
  = (Ok tt, mkState (add_issues (found ++ concat (file_issues env m <$> index)) m) records).
Proof.
  intros Hall. revert found.
  induction Hall as [|[file_path imports] index Hkv _ IH]; intros found; simpl.
  - by rewrite app_nil_r.
  - unfold bind at 1.
    rewrite (validate_file_returns env m file_path (set_iter env imports) found records Hkv).
    rewrite IH. unfold file_issues at 2; simpl. by rewrite <- app_assoc.
Qed.

Lemma validate_index_raises env m (index : dict Path (gset string)) found records :
  (for_ index (fun '(file_path, imports) =>
                 for_ (set_iter env imports) (validate_one env file_path))
        (mkState (add_issues found m) records)).1 = Ok tt →
  Forall (file_returns env m) index.
Proof.
  revert found. induction index as [|[file_path imports] index IH]; intros found; simpl;
    [constructor|].
  unfold bind at 1.
  destruct (for_ (set_iter env imports) (validate_one env file_path)
                 (mkState (add_issues found m) records)) as [[[]|e] st'] eqn:Hfile;
    simpl; [|done].
  assert (Hkv : file_returns env m (file_path, imports)).
  { apply (validate_file_raises env m file_path (set_iter env imports) found records).
    by rewrite Hfile. }
  rewrite (validate_file_returns env m file_path (set_iter env imports) found records Hkv)
    in Hfile.
  injection Hfile as <-. intros Hrest. constructor; [exact Hkv|]. by eapply IH.
Qed.

(** The resolver returns exactly when every check returns. *)
Lemma validate_imports_returns env st :
  (_validate_imports env st).1 = Ok tt ↔
  Forall (file_returns env (self st)) (file_imports (self st)).
Proof.
  unfold _validate_imports. run_m. destruct st as [m records]; cbn [self].
  rewrite <- (add_issues_nil m) at 1 3. split.
  - rewrite add_issues_nil. rewrite <- (add_issues_nil m) at 2.
    apply validate_index_raises.
  - intros Hall. rewrite add_issues_nil in Hall |- *.
    rewrite <- (add_issues_nil m) at 2.
    by rewrite (validate_index_returns _ _ _ _ _ Hall).
Qed.

(** ... and then the issues found are those of each file in turn. *)
Lemma validate_imports_closed_form env st :
  Forall (file_returns env (self st)) (file_imports (self st)) →
  _validate_imports env st
  = (Ok tt, mkState (add_issues (concat (file_issues env (self st)
                                          <$> file_imports (self st)))
                                (self st))
                    (log st)).
Proof.
  intros Hall. unfold _validate_imports. run_m. destruct st as [m records]; cbn [self log] in *.
  rewrite <- (add_issues_nil m) at 2.
  by rewrite (validate_index_returns env m (file_imports m) [] records Hall).
Qed.

Lemma checked_issue_ext envA envB m file_path imp :
  same_provider envA envB → same_disk envA envB →
  checked_issue envA m file_path imp = checked_issue envB m file_path imp.
Proof.
  intros Hprov Hdisk. unfold checked_issue.
  by rewrite (check_import_ext envA envB Hprov Hdisk).
Qed.

Lemma file_returns_transfer envA envB m kv :
  same_provider envA envB → same_disk envA envB →
  set_iter envA kv.2 ≡ₚ set_iter envB kv.2 →
  file_returns envA m kv → file_returns envB m kv.
Proof.
  intros Hprov Hdisk Hperm. unfold file_returns. rewrite <- Hperm.
  intros HA. eapply Forall_impl; [exact HA|].
  intros imp [r Hr]. exists r.
  by rewrite <- (check_import_ext envA envB Hprov Hdisk).
Qed.

Lemma file_issues_permutation envA envB m kv :
  same_provider envA envB → same_disk envA envB →
  set_iter envA kv.2 ≡ₚ set_iter envB kv.2 →
  file_issues envA m kv ≡ₚ file_issues envB m kv.
Proof.
  intros Hprov Hdisk Hperm. unfold file_issues. rewrite <- Hperm.
  apply reflexive_eq, list_omap_ext, Forall2_same_length_lookup.
  split; [done|]. intros i x y Hx Hy. rewrite Hx in Hy. injection Hy as <-.
  by apply checked_issue_ext.
Qed.

(** X25. When the two runs iterate each import set over the same elements,
    in whatever order, and one returns, the other returns too, with the same
    issues up to their order. *)
Lemma validate_imports_issues_permutation envA envB st :
  same_provider envA envB → same_disk envA envB →
  Forall (fun kv => set_iter envA kv.2 ≡ₚ set_iter envB kv.2) (file_imports (self st)) →
  (_validate_imports envA st).1 = Ok tt →
  (_validate_imports envB st).1 = Ok tt ∧
  issues (self (_validate_imports envB st).2)
  ≡ₚ issues (self (_validate_imports envA st).2).
Proof.
  intros Hprov Hdisk Hperm HA.
  apply validate_imports_returns in HA.
  assert (HB : Forall (file_returns envB (self st)) (file_imports (self st))).
  { revert HA. induction Hperm as [|kv index Hkv _ IH]; intros HA; [constructor|].
    inversion HA; subst. constructor; [by eapply file_returns_transfer|by apply IH]. }
  rewrite (validate_imports_closed_form envA st HA),
          (validate_imports_closed_form envB st HB). cbn [fst snd self].
  split; [reflexivity|]. unfold add_issues; simpl. apply Permutation_app_head.
  clear HA HB. induction Hperm as [|kv index Hkv _ IH]; simpl; [reflexivity|].
  apply Permutation_app; [symmetry; by apply file_issues_permutation|exact IH].
Qed.

End ResolverFacts.


Local Open Scope list_scope.

(** ** More on the extractor *)

Section VisitorAlgebra.
Import Ast Visitor Laws.

Lemma visitor_eq (a b : ImportsVisitor) :
  imported_modules a = imported_modules b → module_defs a = module_defs b → a = b.
Proof. destruct a, b; simpl; intros -> ->; reflexivity. Qed.

Lemma merge_init_l (v : ImportsVisitor) : merge init v = v.
Proof. apply visitor_eq; simpl; apply union_empty_l_L. Qed.

Lemma merge_assoc (a b c : ImportsVisitor) : merge (merge a b) c = merge a (merge b c).
Proof. apply visitor_eq; simpl; by rewrite (assoc_L (∪)). Qed.

Lemma merge_comm (a b : ImportsVisitor) : merge a b = merge b a.
Proof. apply visitor_eq; simpl; apply (comm_L (∪)). Qed.

Lemma merge_idemp (a : ImportsVisitor) : merge a a = a.
Proof. apply visitor_eq; simpl; apply (idemp_L (∪)). Qed.

Lemma additive_id : additive (fun v => v).
Proof. intros v. by rewrite merge_init_l. Qed.

Lemma additive_add_import (p : string) : additive (add_import p).
Proof.
  intros v. apply visitor_eq; simpl.
  - by rewrite union_empty_r_L.
  - by rewrite union_empty_l_L.
Qed.

Lemma additive_add_def (n : string) : additive (add_def n).
Proof.
  intros v. apply visitor_eq; simpl.
  - by rewrite union_empty_l_L.
  - by rewrite union_empty_r_L.
Qed.

Lemma additive_compose (f g : ImportsVisitor → ImportsVisitor) :
  additive f → additive g → additive (fun v => f (g v)).
Proof.
  intros Hf Hg v. rewrite (Hf (g v)), (Hg v), (Hf (g init)). by rewrite merge_assoc.
Qed.

Lemma additive_fold {X} (step : X → ImportsVisitor → ImportsVisitor) (xs : list X) :
  Forall (fun x => additive (step x)) xs →
  additive (fun v => fold_left (fun acc x => step x acc) xs v).
Proof.
  induction 1 as [|x xs Hx _ IH]; simpl; [apply additive_id|].
  apply (additive_compose (fun v => fold_left (fun acc x => step x acc) xs v) (step x));
    assumption.
Qed.

Lemma additive_ext (f g : ImportsVisitor → ImportsVisitor) :
  (∀ v, f v = g v) → additive f → additive g.
Proof. intros Hfg Hf v. rewrite <- !Hfg. apply Hf. Qed.

Lemma additive_visit_Assign_target (t : expr) : additive (visit_Assign_target t).
Proof.
  destruct t as [id|elts|elts|y|y a|y i|elts]; simpl;
    try apply additive_id; [apply additive_add_def|].
  apply additive_fold, Forall_forall. intros e _.
  destruct e; simpl; try apply additive_id. apply additive_add_def.
Qed.

Lemma additive_visit_ImportFrom_alias (module : string) (a : alias) :
  additive (visit_ImportFrom_alias module a).
Proof.
  unfold visit_ImportFrom_alias.
  destruct (String.eqb (name a) "*"), (Py.truthy module);
    try apply additive_id; apply additive_add_import.
Qed.

Lemma additive_visit (s : stmt) : additive (visit s).
Proof.
  revert s. fix IH 1. intros s.
  assert (Hbody : ∀ body, Forall (fun c => additive (visit c)) body).
  { fix IHl 1. intros [|c body]; constructor; [apply IH|apply IHl]. }
  destruct s as [names|module names level|targets value|n body|n body|n body|exprs body].
  - apply (additive_fold (fun a => add_import (name a))), Forall_forall.
    intros a _. apply additive_add_import.
  - apply (additive_fold (visit_ImportFrom_alias (default "" module))), Forall_forall.
    intros a _. apply additive_visit_ImportFrom_alias.
  - apply (additive_ext (visit_Assign_targets targets)).
    { intros v. simpl. by rewrite generic_visit_exprs_id, generic_visit_expr_id. }
    apply (additive_fold visit_Assign_target), Forall_forall.
    intros t _. apply additive_visit_Assign_target.
  - apply (additive_compose (fun v => fold_left (fun acc c => visit c acc) body v) (add_def n)).
    + apply additive_fold, Hbody.
    + apply additive_add_def.
  - apply (additive_compose (fun v => fold_left (fun acc c => visit c acc) body v) (add_def n)).
    + apply additive_fold, Hbody.
    + apply additive_add_def.
  - apply (additive_compose (fun v => fold_left (fun acc c => visit c acc) body v) (add_def n)).
    + apply additive_fold, Hbody.
    + apply additive_add_def.
  - apply (additive_ext (fun v => fold_left (fun acc c => visit c acc) body v)).
    { intros v. simpl. by rewrite generic_visit_exprs_id. }
    apply additive_fold, Hbody.
Qed.

Lemma additive_visit_Module (tree : module_) : additive (visit_Module tree).
Proof.
  apply (additive_fold visit), Forall_forall. intros s _. apply additive_visit.
Qed.

Lemma visit_Module_app (t1 t2 : module_) (v : ImportsVisitor) :
  visit_Module (t1 ++ t2)%list v = visit_Module t2 (visit_Module t1 v).
Proof. unfold visit_Module. apply fold_left_app. Qed.

End VisitorAlgebra.

(** ** More on strings and paths *)

Section StringFacts.
Import Py.

(** Joining the pieces of a split with the separator gives the text back. *)
Lemma join_split (sep : ascii) (s : string) :
  join (String sep EmptyString) (split sep s) = s.
Proof.
  induction s as [|c s IH]; simpl; [reflexivity|].
  destruct (Ascii.eqb c sep) eqn:Ec.
  - apply Ascii.eqb_eq in Ec as ->.
    destruct (split sep s) as [|p ps] eqn:Es; [by apply split_nonempty in Es|].
    simpl in *. by rewrite IH.
  - destruct (split sep s) as [|p ps] eqn:Es; [by apply split_nonempty in Es|].
    destruct ps as [|q qs]; simpl in *; by rewrite <- IH.
Qed.

(** No piece of a split holds the separator. *)
Lemma split_no_sep (sep : ascii) (s : string) :
  Forall (fun p => contains sep p = false) (split sep s).
Proof.
  induction s as [|c s IH]; simpl; [by constructor|].
  destruct (Ascii.eqb c sep) eqn:Ec; [by constructor|].
  destruct (split sep s) as [|p ps]; [constructor; [simpl; by rewrite Ec|constructor]|].
  inversion IH; subst. constructor; [simpl; by rewrite Ec|assumption].
Qed.

(** A text without the separator is its own single piece; one with it has
    at least two pieces. *)
Lemma split_contains (sep : ascii) (s : string) :
  if contains sep s then removelast (split sep s) ≠ [] else split sep s = [s].
Proof.
  induction s as [|c s IH]; simpl; [reflexivity|].
  destruct (Ascii.eqb c sep) eqn:Ec; simpl.
  - destruct (split sep s) eqn:Es; [by apply split_nonempty in Es|done].
  - destruct (contains sep s).
    + destruct (split sep s) as [|p [|q qs]]; simpl in *; done.
    + by rewrite IH.
Qed.

Lemma str_app_assoc (a b c : string) : (a +:+ b) +:+ c = a +:+ b +:+ c.
Proof.
  induction a as [|x a IH]; [reflexivity|].
  change (String x ((a +:+ b) +:+ c) = String x (a +:+ b +:+ c)). by rewrite IH.
Qed.

Lemma join_cons2 (sep p q : string) (qs : list string) :
  join sep (p :: q :: qs) = p +:+ sep +:+ join sep (q :: qs).
Proof. reflexivity. Qed.

Lemma join_snoc (sep : string) (ps : list string) (p : string) :
  ps ≠ [] → join sep (ps ++ [p]) = join sep ps +:+ sep +:+ p.
Proof.
  induction ps as [|q qs IH]; [done|]. intros _.
  destruct qs as [|r rs]; [reflexivity|].
  change ((q :: r :: rs) ++ [p])%list with (q :: r :: (rs ++ [p]))%list.
  rewrite !join_cons2. change (r :: rs ++ [p])%list with ((r :: rs) ++ [p])%list.
  rewrite IH by done. by rewrite !str_app_assoc.
Qed.

End StringFacts.

(** ** The extractor, statement by statement *)

Section VisitorLaws.
Import Ast Visitor Laws.

(** X1. [import a, b.c, d as e] records the dotted path of every alias,
    whatever the length of the list, and leaves the defined names alone:
    the names an import binds are not definitions. *)
Theorem visit_Import_records_every_name (names : list alias) (v : ImportsVisitor) :
  imported_modules (visit (Import names) v)
  = list_to_set (name <$> names) ∪ imported_modules v ∧
  module_defs (visit (Import names) v) = module_defs v.
Proof.
  split; [|apply visit_Import_names_defs].
  apply set_eq. intros p. change (visit (Import names) v) with (visit_Import_names names v).
  rewrite visit_Import_names_imports, elem_of_union, elem_of_list_to_set. tauto.
Qed.

Lemma visit_ImportFrom_alias_defs (module : string) (a : alias) (v : ImportsVisitor) :
  module_defs (visit_ImportFrom_alias module a v) = module_defs v.
Proof.
  unfold visit_ImportFrom_alias.
  by destruct (String.eqb (name a) "*"), (Py.truthy module).
Qed.

Lemma visit_ImportFrom_alias_imports (module : string) (a : alias) (v : ImportsVisitor)
    (p : string) :
  p ∈ imported_modules (visit_ImportFrom_alias module a v) ↔
  p ∈ imported_modules v
  ∨ (name a = "*" ∧ module ≠ "" ∧ p = module)
  ∨ (name a ≠ "*" ∧ module ≠ "" ∧ p = module +:+ "." +:+ name a)
  ∨ (name a ≠ "*" ∧ module = "" ∧ p = name a).
Proof.
  unfold visit_ImportFrom_alias.
  destruct (String.eqb (name a) "*") eqn:Estar.
  - apply String.eqb_eq in Estar. destruct module as [|c module]; simpl.
    + split; [auto|]. intros [?|[(_ & ? & _)|[(? & _)|(? & _)]]]; done.
    + rewrite elem_of_union, elem_of_singleton. split.
      * intros [->|?]; [right; left; done|by left].
      * intros [?|[(_ & _ & ->)|[(? & _)|(? & _)]]]; [by right|by left|done|done].
  - apply String.eqb_neq in Estar. destruct module as [|c module]; simpl;
      rewrite elem_of_union, elem_of_singleton.
    + split.
      * intros [->|?]; [right; right; right; done|by left].
      * intros [?|[(? & _)|[(_ & ? & _)|(_ & _ & ->)]]]; [by right|done|done|by left].
    + split.
      * intros [->|?]; [right; right; left; done|by left].
      * intros [?|[(? & _)|[(_ & _ & ->)|(_ & ? & _)]]]; [by right|done|by left|done].
Qed.

(** X2. [from M import n1, n2, ...] at any relative level: the imported
    paths gain [M] when the list holds the wildcard and [M] is not empty,
    [M.n] for every other name when [M] is not empty, and the bare name [n]
    when there is no module; nothing else is added, the level plays no
    part, and the defined names are unchanged. *)
Theorem visit_ImportFrom_records (module : option string) (names : list alias)
    (level : nat) (v : ImportsVisitor) :
  (∀ p, p ∈ imported_modules (visit (ImportFrom module names level) v) ↔
        p ∈ imported_modules v
        ∨ ∃ a, a ∈ names ∧
               ((name a = "*" ∧ default "" module ≠ "" ∧ p = default "" module)
                ∨ (name a ≠ "*" ∧ default "" module ≠ "" ∧
                   p = default "" module +:+ "." +:+ name a)
                ∨ (name a ≠ "*" ∧ default "" module = "" ∧ p = name a))) ∧
  module_defs (visit (ImportFrom module names level) v) = module_defs v.
Proof.
  change (visit (ImportFrom module names level) v)
    with (visit_ImportFrom_names module names v).
  unfold visit_ImportFrom_names. generalize (default "" module). intros M.
  revert v. induction names as [|a names IH]; intros v; simpl.
  - split; [|reflexivity]. intros p. split; [auto|].
    intros [?|(a & Ha & _)]; [done|]. by apply elem_of_nil in Ha.
  - destruct (IH (visit_ImportFrom_alias M a v)) as [IHi IHd]. split.
    + intros p. rewrite IHi, visit_ImportFrom_alias_imports. split.
      * intros [[?|Ha]|(b & Hb & Hcase)]; [by left| |].
        -- right. exists a. split; [apply elem_of_cons; by left|exact Ha].
        -- right. exists b. split; [apply elem_of_cons; by right|exact Hcase].
      * intros [?|(b & Hb & Hcase)]; [by left; left|].
        apply elem_of_cons in Hb as [->|Hb]; [by left; right|].
        right. by exists b.
    + by rewrite IHd, visit_ImportFrom_alias_defs.
Qed.

(** X3. A function, an async function and a class each record their own
    name and then everything their body records, nested definitions and
    imports included, into the same flat sets; a statement of any other
    kind contributes what the statements nested in it contribute. *)
Theorem visit_definition_flattens (n : string) (body : list stmt) (exprs : list expr)
    (v : ImportsVisitor) :
  visit (FunctionDef n body) v = add_def n (visit_Module body v) ∧
  visit (AsyncFunctionDef n body) v = add_def n (visit_Module body v) ∧
  visit (ClassDef n body) v = add_def n (visit_Module body v) ∧
  visit (OtherStmt exprs body) v = visit_Module body v.
Proof.
  assert (Hdef : fold_left (fun acc c => visit c acc) body (add_def n v)
                 = add_def n (visit_Module body v)).
  { change (visit_Module body (add_def n v) = add_def n (visit_Module body v)).
    rewrite (additive_visit_Module body (add_def n v)),
            (additive_visit_Module body v), (additive_add_def n v),
            (additive_add_def n (merge _ _)).
    rewrite <- !merge_assoc. f_equal. apply merge_comm. }
  repeat split; try exact Hdef.
  simpl. by rewrite generic_visit_exprs_id.
Qed.

(** X4. The visitor only ever adds. Visiting a tree from any state yields
    the union of that state with what the tree records from a fresh
    visitor; two trees one after the other record the union of what each
    records; both sets contain what they held before; and visiting the same
    tree a second time changes nothing. *)
Theorem visit_Module_accumulates (t1 t2 : module_) (v : ImportsVisitor) :
  visit_Module t1 v = merge (visit_Module t1 init) v ∧
  visit_Module (t1 ++ t2)%list init = merge (visit_Module t1 init) (visit_Module t2 init) ∧
  imported_modules v ⊆ imported_modules (visit_Module t1 v) ∧
  module_defs v ⊆ module_defs (visit_Module t1 v) ∧
  visit_Module t1 (visit_Module t1 v) = visit_Module t1 v.
Proof.
  split; [apply additive_visit_Module|]. split; [|split; [|split]].
  - rewrite visit_Module_app, (additive_visit_Module t2 (visit_Module t1 init)).
    apply merge_comm.
  - rewrite (additive_visit_Module t1 v). simpl. apply union_subseteq_r.
  - rewrite (additive_visit_Module t1 v). simpl. apply union_subseteq_r.
  - rewrite (additive_visit_Module t1 (visit_Module t1 v)), (additive_visit_Module t1 v).
    by rewrite <- merge_assoc, merge_idemp.
Qed.

Lemma visit_swap (x y : stmt) (v : ImportsVisitor) :
  visit x (visit y v) = visit y (visit x v).
Proof.
  rewrite (additive_visit x (visit y v)), (additive_visit y v),
          (additive_visit y (visit x v)), (additive_visit x v).
  rewrite <- !merge_assoc. f_equal. apply merge_comm.
Qed.

(** X5. The order of the statements does not matter: two trees with the
    same statements in different orders leave the visitor in the same
    state. *)
Theorem visit_Module_order_insensitive (t1 t2 : module_) (v : ImportsVisitor) :
  t1 ≡ₚ t2 → visit_Module t1 v = visit_Module t2 v.
Proof.
  intros Hperm. revert v. unfold visit_Module.
  induction Hperm as [|x l1 l2 _ IH|x y l|l1 l2 l3 _ IH1 _ IH2]; intros v; simpl.
  - reflexivity.
  - apply IH.
  - by rewrite visit_swap.
  - by rewrite IH1.
Qed.

Lemma visit_Module_order_insensitive_witness :
  visit_Module [Import [mk_alias "os" None]; FunctionDef "main" []] init
  = visit_Module [FunctionDef "main" []; Import [mk_alias "os" None]] init.
Proof.
  apply (visit_Module_order_insensitive
           [Import [mk_alias "os" None]; FunctionDef "main" []]
           [FunctionDef "main" []; Import [mk_alias "os" None]] init).
  apply Permutation_swap.
Defined.

End VisitorLaws.

(** ** utils.py *)

Section UtilsLaws.
Import Py Os Utils Laws.

(** X6. [run_subprocess] on a command with at least one word hands back the
    completed process when the command ran, and contains every failure of
    class [Exception]: it returns [None] after logging one record, a
    warning when the program was not found and an error otherwise. Only an
    exception outside [Exception] leaves the function, unlogged. *)
Theorem run_subprocess_contains_failures (env : Env) (command : list string) :
  command ≠ [] →
  (∀ rc, subprocess_run env command = Ok rc →
         run_subprocess env command = (Ok (Some rc), [])) ∧
  (∀ ex, subprocess_run env command = Raise ex → is_Exception ex = true →
         ∃ record,
           run_subprocess env command = (Ok None, [record]) ∧
           levelname record
           = (if bool_decide (exc_class ex = FileNotFoundError) then WARNING else ERROR)) ∧
  (∀ ex, (run_subprocess env command).1 = Raise ex →
         is_Exception ex = false ∧ subprocess_run env command = Raise ex ∧
         (run_subprocess env command).2 = []).
Proof.
  intros Hcmd. unfold run_subprocess, is_class.
  destruct command as [|c rest]; [done|]. split; [|split].
  - by intros rc ->.
  - intros ex -> Hexc. rewrite Hexc.
    destruct (bool_decide (exc_class ex = FileNotFoundError)); eauto.
  - intros ex. destruct (subprocess_run env (c :: rest)) as [rc|ex0]; [done|].
    destruct (bool_decide (exc_class ex0 = FileNotFoundError)); [done|].
    destruct (is_Exception ex0) eqn:Hexc; [done|]. simpl. by intros [= <-].
Qed.

Lemma run_subprocess_contains_failures_witness :
  run_subprocess Fixtures.forward_env' (ruff_command ["proj"; "app.py"])
  = (Ok (Some 0), []).
Proof.
  refine (proj1 (run_subprocess_contains_failures
                   Fixtures.forward_env' (ruff_command ["proj"; "app.py"]) _) 0 _).
  - discriminate.
  - reflexivity.
Defined.

(** X7. [pre_cleanup_with_ruff] answers [True] exactly when the [ruff]
    process ran and exited with code 0; a missing [ruff], a failure to
    start it or a non-zero exit code all give [False], with at most one
    record logged; it raises only what lies outside [Exception]. *)
Theorem pre_cleanup_with_ruff_outcome (env : Env) (path : Path) :
  ((pre_cleanup_with_ruff env path).1 = Ok true
   ↔ subprocess_run env (ruff_command path) = Ok 0) ∧
  (∀ ex, subprocess_run env (ruff_command path) = Raise ex → is_Exception ex = true →
         (pre_cleanup_with_ruff env path).1 = Ok false) ∧
  (∀ ex, (pre_cleanup_with_ruff env path).1 = Raise ex → is_Exception ex = false) ∧
  (List.length (pre_cleanup_with_ruff env path).2 ≤ 1)%nat.
Proof.
  unfold pre_cleanup_with_ruff, run_subprocess, is_class, ruff_command.
  destruct (subprocess_run env _) as [rc|ex0].
  - simpl. split; [|split; [done|split; [done|lia]]].
    split.
    + intros [= Hrc]. apply bool_decide_eq_true in Hrc. by subst.
    + intros [= ->]. reflexivity.
  - destruct (bool_decide (exc_class ex0 = FileNotFoundError)) eqn:Hnf; simpl.
    { split; [split; done|]. split; [done|]. split; [done|lia]. }
    destruct (is_Exception ex0) eqn:Hexc; simpl.
    + split; [split; done|]. split; [done|]. split; [done|lia].
    + split; [split; done|]. split; [|split; [|lia]].
      * intros ex [= <-]. congruence.
      * by intros ex [= <-].
Qed.

(** X8. [validate_import] returns [None] exactly when the path is not
    empty, the provider imports the module part, and either there is no
    attribute part or the module has the attribute. For a path without a
    dot the attribute part is empty, so only the import is tried. *)
Theorem validate_import_resolves_iff (env : Env) (dotted_path : string)
    (source_file : option string) :
  validate_import env dotted_path source_file = Ok None ↔
  truthy dotted_path = true ∧
  ∃ module,
    import_module env (split_module_attr dotted_path).1 = Ok module ∧
    (truthy (split_module_attr dotted_path).2 = false
     ∨ hasattr module (split_module_attr dotted_path).2 = Ok true).
Proof.
  unfold validate_import, validate_import_try, is_class.
  destruct (truthy dotted_path); simpl; [|split; [done|by intros [? _]]].
  destruct (import_module env (split_module_attr dotted_path).1) as [module|err]; simpl.
  - destruct (truthy (split_module_attr dotted_path).2); simpl.
    + destruct (hasattr module (split_module_attr dotted_path).2) as [[|]|err] eqn:Hhas;
        simpl.
      * split; [|done]. intros _. split; [done|]. exists module. split; [done|by right].
      * split; [done|]. intros (_ & m & [= <-] & [?|Hm]); [done|congruence].
      * split.
        -- destruct (bool_decide _); [done|]. by destruct (is_Exception err).
        -- intros (_ & m & [= <-] & [?|Hm]); [done|congruence].
    + split; [|done]. intros _. split; [done|]. exists module. split; [done|by left].
  - split.
    + destruct (bool_decide _); [done|]. by destruct (is_Exception err).
    + intros (_ & m & ? & _). done.
Qed.

Lemma validate_import_message_nonempty (env : Env) (dotted_path : string)
    (source_file : option string) (msg : string) :
  validate_import env dotted_path source_file = Ok (Some msg) → truthy msg = true.
Proof.
  unfold validate_import, validate_import_try, is_class.
  destruct (truthy dotted_path); simpl; [|by intros [= <-]].
  destruct (import_module env (split_module_attr dotted_path).1) as [module|err]; simpl.
  - destruct (truthy (split_module_attr dotted_path).2); simpl; [|done].
    destruct (hasattr module (split_module_attr dotted_path).2) as [[|]|err]; simpl.
    + done.
    + by intros [= <-].
    + destruct (bool_decide _); [by intros [= <-]|].
      destruct (is_Exception err); [by intros [= <-]|done].
  - destruct (bool_decide _); [by intros [= <-]|].
    destruct (is_Exception err); [by intros [= <-]|done].
Qed.

(** X9. Every message [validate_import] returns is non-empty, so the test
    [if error:] of the external check never drops one: the check returns no
    issue exactly when validation returned [None], returns an EXTERNAL
    issue carrying the file, the import path and the very message
    otherwise, and raises what validation raised. *)
Theorem check_external_reports_every_message (env : Env) (file_path : Path)
    (import_path : string) :
  match validate_import env import_path (Some (str_of_path file_path)) with
  | Ok None => Manager.check_external env file_path import_path = Ok None
  | Ok (Some msg) =>
      truthy msg = true ∧
      Manager.check_external env file_path import_path
      = Ok (Some (Manager.mkIssue file_path import_path msg "EXTERNAL"))
  | Raise err => Manager.check_external env file_path import_path = Raise err
  end.
Proof.
  unfold Manager.check_external.
  destruct (validate_import env import_path (Some (str_of_path file_path)))
    as [[msg|]|err] eqn:Hv; simpl; [|done..].
  apply validate_import_message_nonempty in Hv. by rewrite Hv.
Qed.

(** X10. Whatever the platform, a directory [is_venv] accepts holds a
    [pyvenv.cfg]; a path that is not a directory is never accepted; and on
    Linux the test is exactly the presence of [bin], [include], [lib] and
    [pyvenv.cfg] in a directory. *)
Theorem is_venv_needs_pyvenv_cfg (env : Env) (path : Path) :
  (is_venv env path = true →
   is_dir env path = true ∧ exists_ env (truediv path "pyvenv.cfg") = true) ∧
  (is_dir env path = false → is_venv env path = false) ∧
  (sys_platform env = "linux" →
   is_venv env path
   = is_dir env path && exists_ env (truediv path "bin")
     && exists_ env (truediv path "include") && exists_ env (truediv path "lib")
     && exists_ env (truediv path "pyvenv.cfg")).
Proof.
  unfold is_venv, VENV_INDICATORS. split; [|split].
  - destruct (is_dir env path); simpl; [|done].
    destruct (String.eqb (sys_platform env) "linux");
      [|destruct (String.eqb (sys_platform env) "linux2");
        [|destruct (String.eqb (sys_platform env) "darwin");
          [|destruct (String.eqb (sys_platform env) "win32")]]];
      simpl; rewrite ?andb_true_iff; intros H; split; try done; tauto.
  - by intros ->.
  - intros ->. simpl. destruct (is_dir env path); simpl; [|done].
    by rewrite andb_true_r, !andb_assoc.
Qed.

(** X11. Where [validate_import] splits a dotted path it splits at the last
    dot: the module part, a dot and the attribute part give the path back,
    and the attribute part holds no dot. A path without a dot is all module
    part. *)
Theorem split_module_attr_recomposes (dotted_path : string) :
  if contains "." dotted_path then
    (split_module_attr dotted_path).1 +:+ "." +:+ (split_module_attr dotted_path).2
    = dotted_path ∧
    contains "." (split_module_attr dotted_path).2 = false
  else split_module_attr dotted_path = (dotted_path, "").
Proof.
  unfold split_module_attr, rsplit1.
  pose proof (split_contains "." dotted_path) as Hparts.
  destruct (contains "." dotted_path); [|reflexivity]. simpl. split.
  - rewrite <- (join_split "." dotted_path) at 3.
    rewrite (app_removelast_last "" (split_nonempty "." dotted_path)) at 3.
    by rewrite join_snoc.
  - pose proof (split_no_sep "." dotted_path) as Hno.
    rewrite (app_removelast_last "" (split_nonempty "." dotted_path)) in Hno.
    apply Forall_app in Hno as [_ Hlast]. by inversion Hlast.
Qed.

End UtilsLaws.

(** ** More on the index builder *)

Section DictLaws.
Import Py.
Context {K V : Type} `{EqDecision K}.

Lemma get_set_ne (k q : K) (v : V) (d : dict K V) :
  q ≠ k → get q (set k v d) = get q d.
Proof.
  intros Hne. induction d as [|[k' v'] d IH]; simpl.
  - by rewrite decide_False.
  - destruct (decide (k' = k)) as [->|Hk]; simpl.
    + by rewrite !decide_False.
    + destruct (decide (k' = q)); [done|exact IH].
Qed.

Lemma keys_set (k : K) (v : V) (d : dict K V) :
  keys (set k v d) = if mem k d then keys d else (keys d ++ [k])%list.
Proof.
  unfold keys, mem. induction d as [|[k' v'] d IH]; [done|].
  cbn [set get]. destruct (decide (k' = k)) as [->|Hk].
  - by rewrite bool_decide_eq_true_2 by eauto.
  - rewrite fmap_cons, IH. by destruct (bool_decide (is_Some (get k d))).
Qed.

Lemma NoDup_keys_set (k : K) (v : V) (d : dict K V) :
  NoDup (keys d) → NoDup (keys (set k v d)).
Proof.
  intros Hd. rewrite keys_set. destruct (mem k d) eqn:Hmem; [done|].
  apply NoDup_app. split; [done|]. split; [|apply NoDup_singleton].
  intros x Hx ->%list_elem_of_singleton.
  apply mem_keys in Hx. congruence.
Qed.
End DictLaws.

Section IndexLaws.
Import Py Os Manager Props Laws.

Ltac run_m :=
  unfold bind, ret, raise, lift, get_self, emit, modify.

Lemma analyze_parses (env : Env) (p : Path) (tree : Ast.module_) :
  stat env p = Some (FsFile (Ok tree)) →
  Analyzer.analyze env (Analyzer.init p)
  = Ok (Analyzer.mkAnalyzer p (Visitor.imported_modules (extract tree))
                            (Visitor.module_defs (extract tree))).
Proof.
  intros Hstat. unfold Analyzer.analyze, Analyzer.read_and_parse; simpl.
  by rewrite Hstat.
Qed.

(** The three ways [_analyze_file] ends, by what the analysis gives. *)
Lemma analyze_file_cases (env : Env) (p : Path) (st : State) :
  cleanup_returns env (self st) p →
  _analyze_file env p st
  = match Analyzer.analyze env (Analyzer.init p) with
    | Ok a => (Ok tt, mkState (set_index p a (self st))
                              (log st ++ cleanup_records env (self st) p))
    | Raise err =>
        if is_class SyntaxError err then
          (Ok tt, mkState (self st)
                          (log st ++ cleanup_records env (self st) p
                                  ++ [syntax_warning p err]))
        else if is_Exception err then
          (Ok tt, mkState (self st)
                          (log st ++ cleanup_records env (self st) p
                                  ++ [analysis_error p err]))
        else (Raise err, mkState (self st) (log st ++ cleanup_records env (self st) p))
    end.
Proof.
  intros Hclean. unfold _analyze_file, cleanup_records, cleanup_returns in *. run_m.
  destruct (auto_fix (self st)); simpl.
  - destruct Hclean as [b Hb]; [done|].
    destruct (Utils.pre_cleanup_with_ruff env p) as [r records]; simpl in *.
    subst r; simpl.
    destruct (Analyzer.analyze env (Analyzer.init p)) as [a|err]; simpl; [done|].
    destruct (is_class SyntaxError err); simpl; [by rewrite <- app_assoc|].
    destruct (is_Exception err); simpl; [by rewrite <- app_assoc|done].
  - rewrite app_nil_r.
    destruct (Analyzer.analyze env (Analyzer.init p)) as [a|err]; simpl; [done|].
    destruct (is_class SyntaxError err); simpl; [done|].
    destruct (is_Exception err); simpl; [done|]. by destruct st.
Qed.

(** X12. A file that parses is indexed under its path: the call returns
    normally, both maps hold for that path what the extractor records from
    the file's tree starting from nothing, every other path keeps its
    entries, and nothing is logged but what the cleanup step logged. *)
Theorem analyze_file_indexes_file (env : Env) (p : Path) (tree : Ast.module_)
    (st : State) :
  stat env p = Some (FsFile (Ok tree)) →
  cleanup_returns env (self st) p →
  (_analyze_file env p st).1 = Ok tt ∧
  get p (file_imports (self (_analyze_file env p st).2))
  = Some (Visitor.imported_modules (extract tree)) ∧
  get p (module_defs (self (_analyze_file env p st).2))
  = Some (Visitor.module_defs (extract tree)) ∧
  (∀ q, q ≠ p →
        get q (file_imports (self (_analyze_file env p st).2))
        = get q (file_imports (self st)) ∧
        get q (module_defs (self (_analyze_file env p st).2))
        = get q (module_defs (self st))) ∧
  issues (self (_analyze_file env p st).2) = issues (self st) ∧
  log (_analyze_file env p st).2 = log st ++ cleanup_records env (self st) p.
Proof.
  intros Hstat Hclean.
  rewrite (analyze_file_cases env p st Hclean), (analyze_parses env p tree Hstat).
  cbn [fst snd self log set_index file_imports module_defs issues
       Analyzer.imported_modules Analyzer.module_defs].
  split; [done|]. split; [apply get_set_eq|]. split; [apply get_set_eq|].
  split; [|done]. intros q Hq. by rewrite !get_set_ne.
Qed.

Lemma analyze_file_indexes_file_witness :
  get ["proj"; "valid.py"]
      (file_imports (self (_analyze_file Fixtures.invalid_env ["proj"; "valid.py"]
                                         (Fixtures.fresh Fixtures.invalid_env)).2))
  = Some {["os"]}.
Proof.
  refine (proj1 (proj2 (analyze_file_indexes_file
                          Fixtures.invalid_env ["proj"; "valid.py"]
                          [Ast.Import [Ast.mk_alias "os" None]]
                          (Fixtures.fresh Fixtures.invalid_env) _ _))).
  - reflexivity.
  - intros Hfix. vm_compute in Hfix. discriminate.
Defined.




(** A path below the regular file [/proj/app.py]: not a directory. *)
Example analyze_file_below_file :
  _analyze_file Fixtures.pkg_env ["proj"; "app.py"; "x.py"]
                (Fixtures.fresh Fixtures.pkg_env)
  = (Ok tt,
     mkState (self (Fixtures.fresh Fixtures.pkg_env))
             [mkLog ERROR
                    "Error analyzing /proj/app.py/x.py: [Errno 20] Not a directory: '/proj/app.py/x.py'"]) ∧
  exists_ Fixtures.pkg_env ["proj"; "app.py"; "x.py"] = false.
Proof. vm_compute. split; reflexivity. Qed.

(** *** What the collection phase keeps *)

(** A property of the manager that storing a file's records preserves
    holds after [_analyze_file], and after the whole collection. *)
Lemma analyze_file_preserves (P : LinterManager → Prop) (env : Env) (p : Path)
    (st : State) :
  (∀ q a m, P m → P (set_index q a m)) →
  P (self st) → P (self (_analyze_file env p st).2).
Proof.
  intros Hset Hst. destruct (analyze_file_self env p st) as [->|(a & _ & ->)]; auto.
Qed.

Lemma collect_files_preserves (P : LinterManager → Prop) (env : Env) (st : State) :
  (∀ q a m, P m → P (set_index q a m)) →
  P (self st) → P (self (_collect_files env st).2).
Proof.
  intros Hset Hst. unfold _collect_files. run_m.
  destruct (is_file env (root_path (self st))); [by apply analyze_file_preserves|].
  destruct (is_dir env (root_path (self st))); [|exact Hst].
  unfold _analyze_directory. run_m.
  destruct (stat env (root_path (self st))); [|exact Hst].
  apply (for_preserves (fun st => P (self st))); [|exact Hst].
  intros [[dirpath dirs] filenames] st1 Hst1. unfold analyze_filenames.
  apply (for_preserves (fun st => P (self st))); [|exact Hst1].
  intros filename st2 Hst2. destruct (endswith filename ".py"); [|exact Hst2].
  by apply analyze_file_preserves.
Qed.

Lemma analyze_file_log_extends (env : Env) (p : Path) (st : State) :
  ∃ records, log (_analyze_file env p st).2 = log st ++ records.
Proof.
  unfold _analyze_file. run_m.
  destruct (auto_fix (self st)); simpl.
  - destruct (Utils.pre_cleanup_with_ruff env p) as [[b|e] records]; simpl; [|eauto].
    destruct (Analyzer.analyze env (Analyzer.init p)) as [a|err]; simpl; [eauto|].
    destruct (is_class SyntaxError err); simpl; [rewrite <- app_assoc; eauto|].
    destruct (is_Exception err); simpl; [rewrite <- app_assoc; eauto|eauto].
  - destruct (Analyzer.analyze env (Analyzer.init p)) as [a|err]; simpl;
      [exists []; by rewrite app_nil_r|].
    destruct (is_class SyntaxError err); simpl; [eauto|].
    destruct (is_Exception err); simpl; [eauto|]. exists []. by rewrite app_nil_r.
Qed.

Lemma collect_files_log_extends (env : Env) (st : State) :
  ∃ records, log (_collect_files env st).2 = log st ++ records.
Proof.
  set (P := fun st' : State => ∃ records, log st' = log st ++ records).
  assert (Hstep : ∀ p st', P st' → P (_analyze_file env p st').2).
  { intros p st' [r Hr]. destruct (analyze_file_log_extends env p st') as [r' Hr'].
    exists (r ++ r'). by rewrite Hr', Hr, app_assoc. }
  assert (H0 : P st) by (exists []; by rewrite app_nil_r).
  unfold _collect_files. run_m.
  destruct (is_file env (root_path (self st))); [by apply Hstep|].
  destruct (is_dir env (root_path (self st))); [|exact H0].
  unfold _analyze_directory. run_m.
  destruct (stat env (root_path (self st))); [|exact H0].
  apply (for_preserves P); [|exact H0].
  intros [[dirpath dirs] filenames] st1 Hst1. unfold analyze_filenames.
  apply (for_preserves P); [|exact Hst1].
  intros filename st2 Hst2. destruct (endswith filename ".py"); [|exact Hst2].
  by apply Hstep.
Qed.

(** X14. Collecting files never touches the issues, the root, the
    exclusions or the auto-fix flag, whatever happens to the files, and
    only ever appends to the log. *)
Theorem collect_files_frame (env : Env) (st : State) :
  issues (self (_collect_files env st).2) = issues (self st) ∧
  root_path (self (_collect_files env st).2) = root_path (self st) ∧
  excluded_dirs (self (_collect_files env st).2) = excluded_dirs (self st) ∧
  auto_fix (self (_collect_files env st).2) = auto_fix (self st) ∧
  ∃ records, log (_collect_files env st).2 = log st ++ records.
Proof.
  split; [|split; [|split; [|split]]].
  - by apply (collect_files_preserves (fun m => issues m = issues (self st))).
  - by apply (collect_files_preserves (fun m => root_path m = root_path (self st))).
  - by apply (collect_files_preserves (fun m => excluded_dirs m = excluded_dirs (self st))).
  - by apply (collect_files_preserves (fun m => auto_fix m = auto_fix (self st))).
  - apply collect_files_log_extends.
Qed.

Lemma validate_one_appends (env : Env) (file_path : Path) (imp : string) (st : State) :
  ∃ found, (validate_one env file_path imp st).2
           = mkState (add_issues found (self st)) (log st).
Proof.
  unfold validate_one. run_m.
  destruct (_check_import env (self st) file_path imp) as [[i|]|e]; simpl.
  - exists [i]. reflexivity.
  - exists []. rewrite add_issues_nil. by destruct st.
  - exists []. rewrite add_issues_nil. by destruct st.
Qed.

Lemma appends_trans (st0 st1 st2 : State) :
  (∃ found, st1 = mkState (add_issues found (self st0)) (log st0)) →
  (∃ found, st2 = mkState (add_issues found (self st1)) (log st1)) →
  ∃ found, st2 = mkState (add_issues found (self st0)) (log st0).
Proof.
  intros [f1 ->] [f2 ->]. exists (f1 ++ f2). cbn [self log].
  unfold add_issues; simpl. by rewrite app_assoc.
Qed.

Lemma validate_imports_appends (env : Env) (st : State) :
  ∃ found, (_validate_imports env st).2 = mkState (add_issues found (self st)) (log st).
Proof.
  set (P := fun st' : State =>
              ∃ found, st' = mkState (add_issues found (self st)) (log st)).
  assert (H0 : P st).
  { exists []. rewrite add_issues_nil. by destruct st. }
  unfold _validate_imports. run_m.
  apply (for_preserves P); [|exact H0].
  intros [file_path imports] st1 Hst1.
  apply (for_preserves P); [|exact Hst1].
  intros imp st2 Hst2. apply (appends_trans st st2); [exact Hst2|].
  apply validate_one_appends.
Qed.

(** X15. The resolver changes nothing but the issue list, and that only
    by appending: whether it returns or raises half-way, the index, the
    root, the exclusions, the auto-fix flag and the log are as before, and
    the issues present before are still there, first and in order. *)
Theorem validate_imports_frame (env : Env) (st : State) :
  ∃ found,
    (_validate_imports env st).2
    = mkState (mkManager (root_path (self st)) (module_defs (self st))
                         (file_imports (self st)) (issues (self st) ++ found)
                         (excluded_dirs (self st)) (auto_fix (self st)))
              (log st).
Proof. apply validate_imports_appends. Qed.

(** X16. Starting from maps with the same keys, each stored once, a run
    leaves maps with the same keys, each stored once, whether it returns,
    finds the root missing or raises on the way. A fresh manager starts
    so. *)
Theorem run_keeps_index_well_formed (env : Env) (st : State) :
  index_consistent (self st) →
  NoDup (keys (file_imports (self st))) →
  NoDup (keys (module_defs (self st))) →
  index_consistent (self (run env st).2) ∧
  NoDup (keys (file_imports (self (run env st).2))) ∧
  NoDup (keys (module_defs (self (run env st).2))).
Proof.
  intros Hc Hi Hd.
  set (P := fun m : LinterManager =>
              index_consistent m ∧ NoDup (keys (file_imports m))
              ∧ NoDup (keys (module_defs m))).
  assert (Hcollect : P (self (_collect_files env st).2)).
  { apply (collect_files_preserves P); [|done].
    intros q a m (Hmc & Hmi & Hmd). split; [by apply set_index_consistent|].
    split; apply NoDup_keys_set; assumption. }
  unfold run. run_m. destruct (negb (exists_ env (root_path (self st)))); [done|].
  destruct (_collect_files env st) as [[[]|e] st1] eqn:Hst1; simpl in *; [|exact Hcollect].
  destruct (validate_imports_keeps_index env st1) as [Hfi Hmd].
  assert (Hvalid : P (self (_validate_imports env st1).2)).
  { destruct Hcollect as (Hmc & Hmi & Hmd'). unfold P, index_consistent.
    rewrite Hfi, Hmd. done. }
  destruct (_validate_imports env st1) as [[[]|e] st2]; simpl in *; exact Hvalid.
Qed.

Lemma run_keeps_index_well_formed_witness :
  index_consistent (self (run Fixtures.pkg_env (Fixtures.fresh Fixtures.pkg_env)).2) ∧
  NoDup (keys (file_imports
                 (self (run Fixtures.pkg_env (Fixtures.fresh Fixtures.pkg_env)).2))) ∧
  NoDup (keys (module_defs
                 (self (run Fixtures.pkg_env (Fixtures.fresh Fixtures.pkg_env)).2))).
Proof.
  apply (run_keeps_index_well_formed Fixtures.pkg_env (Fixtures.fresh Fixtures.pkg_env)).
  - intros q. reflexivity.
  - apply NoDup_nil_2.
  - apply NoDup_nil_2.
Defined.

End IndexLaws.

(** ** What gets collected *)

Section CollectionLaws.
Import Py Os Manager Props Laws.

Ltac run_m :=
  unfold bind, ret, raise, lift, get_self, emit, modify.

Lemma for_app {X} (xs ys : list X) (body : X → M unit) (st : State) :
  for_ (xs ++ ys) body st = (for_ xs body >> for_ ys body) st.
Proof.
  revert st. induction xs as [|x xs IH]; intros st; simpl.
  - unfold bind, ret. reflexivity.
  - unfold bind in *. destruct (body x st) as [[[]|e] st1]; [apply IH|reflexivity].
Qed.

(** A loop nested in a loop is one loop over the concatenation. *)
Lemma for_flat_map {X Y} (h : X → list Y) (xs : list X) (body : Y → M unit) (st : State) :
  for_ (flat_map h xs) body st = for_ xs (fun x => for_ (h x) body) st.
Proof.
  revert st. induction xs as [|x xs IH]; intros st; simpl; [reflexivity|].
  rewrite for_app. unfold bind.
  destruct (for_ (h x) body st) as [[[]|e] st1]; [apply IH|reflexivity].
Qed.

(** A guarded loop body is a loop over the elements that pass the guard. *)
Lemma for_filter_fmap {X Y} (keep : X → bool) (g : X → Y) (xs : list X)
    (body : Y → M unit) (st : State) :
  for_ xs (fun x => if keep x then body (g x) else ret tt) st
  = for_ (g <$> List.filter keep xs) body st.
Proof.
  revert st. induction xs as [|x xs IH]; intros st; simpl; [reflexivity|].
  destruct (keep x); simpl.
  - unfold bind. destruct (body (g x) st) as [[[]|e] st1]; [apply IH|reflexivity].
  - unfold bind at 1. unfold ret at 1. apply IH.
Qed.

(** [_collect_files] is one loop of [_analyze_file] over the collected
    paths. *)
Lemma collect_files_loop (env : Env) (st : State) :
  _collect_files env st
  = for_ (collected_paths env (self st)) (_analyze_file env) st.
Proof.
  unfold _collect_files, collected_paths. run_m.
  destruct (is_file env (root_path (self st))).
  { simpl. unfold bind, ret. by destruct (_analyze_file env (root_path (self st)) st)
      as [[[]|e] st1]. }
  destruct (is_dir env (root_path (self st))); [|reflexivity].
  unfold _analyze_directory. run_m.
  destruct (stat env (root_path (self st))) as [top|]; [|reflexivity].
  rewrite for_flat_map. apply for_ext, Forall_forall.
  intros [[dirpath dirs] filenames] _ st1. unfold analyze_filenames.
  apply for_filter_fmap.
Qed.

Lemma analyze_file_stores (env : Env) (p : Path) (a : Analyzer.PythonFileAnalyzer)
    (st : State) :
  (_analyze_file env p st).1 = Ok tt →
  Analyzer.analyze env (Analyzer.init p) = Ok a →
  self (_analyze_file env p st).2 = set_index p a (self st).
Proof.
  unfold _analyze_file. run_m. intros Hok Ha. rewrite Ha in *.
  destruct (auto_fix (self st)); simpl in *; [|reflexivity].
  destruct (Utils.pre_cleanup_with_ruff env p) as [[b|e] records]; simpl in *; done.
Qed.

Lemma analyze_file_other_paths (env : Env) (p q : Path) (st : State) :
  q ≠ p →
  get q (file_imports (self (_analyze_file env p st).2)) = get q (file_imports (self st)) ∧
  get q (module_defs (self (_analyze_file env p st).2)) = get q (module_defs (self st)).
Proof.
  intros Hq. destruct (analyze_file_self env p st) as [->|(a & _ & ->)]; [done|].
  simpl. by rewrite !get_set_ne.
Qed.

Lemma analyze_loop_other_paths (env : Env) (files : list Path) (q : Path) (st : State) :
  q ∉ files →
  get q (file_imports (self (for_ files (_analyze_file env) st).2))
  = get q (file_imports (self st)) ∧
  get q (module_defs (self (for_ files (_analyze_file env) st).2))
  = get q (module_defs (self st)).
Proof.
  revert st. induction files as [|p files IH]; intros st Hq; simpl; [done|].
  apply not_elem_of_cons in Hq as [Hqp Hq].
  destruct (analyze_file_other_paths env p q st Hqp) as [Hi Hd].
  unfold bind. destruct (_analyze_file env p st) as [[[]|e] st1]; simpl in *; [|done].
  destruct (IH st1 Hq) as [Hi1 Hd1]. by rewrite Hi1, Hd1.
Qed.

Lemma analyze_loop_stores (env : Env) (files : list Path) (p : Path)
    (a : Analyzer.PythonFileAnalyzer) (st : State) :
  (for_ files (_analyze_file env) st).1 = Ok tt →
  p ∈ files →
  Analyzer.analyze env (Analyzer.init p) = Ok a →
  get p (file_imports (self (for_ files (_analyze_file env) st).2))
  = Some (Analyzer.imported_modules a) ∧
  get p (module_defs (self (for_ files (_analyze_file env) st).2))
  = Some (Analyzer.module_defs a).
Proof.
  revert st. induction files as [|p0 files IH]; intros st Hok Hp Ha; simpl in *.
  { by apply elem_of_nil in Hp. }
  unfold bind in *.
  destruct (_analyze_file env p0 st) as [[[]|e] st1] eqn:Hstep; simpl in *; [|done].
  destruct (decide (p ∈ files)) as [Hin|Hnotin]; [by apply IH|].
  apply elem_of_cons in Hp as [->|Hp]; [|done].
  destruct (analyze_loop_other_paths env files p0 st1 Hnotin) as [-> ->].
  assert (Hself : self st1 = set_index p0 a (self st)).
  { pose proof (analyze_file_stores env p0 a st) as Hs. rewrite Hstep in Hs.
    by apply Hs. }
  rewrite Hself. simpl. by rewrite !get_set_eq.
Qed.

(** X17. When the collection returns, every collected path whose file can
    be analysed is in the index with exactly what its analysis gave, in
    both maps; a path collected more than once, or already present, holds
    the same. *)
Theorem collect_files_indexes_collected (env : Env) (st : State) (p : Path)
    (a : Analyzer.PythonFileAnalyzer) :
  (_collect_files env st).1 = Ok tt →
  p ∈ collected_paths env (self st) →
  Analyzer.analyze env (Analyzer.init p) = Ok a →
  get p (file_imports (self (_collect_files env st).2))
  = Some (Analyzer.imported_modules a) ∧
  get p (module_defs (self (_collect_files env st).2))
  = Some (Analyzer.module_defs a).
Proof. rewrite collect_files_loop. apply analyze_loop_stores. Qed.

Lemma collect_files_indexes_collected_witness :
  get ["proj"; "pkg"; "mod.py"]
      (module_defs (self (_collect_files Fixtures.pkg_env
                                         (Fixtures.fresh Fixtures.pkg_env)).2))
  = Some {["foo"]}.
Proof.
  refine (proj2 (collect_files_indexes_collected
                   Fixtures.pkg_env (Fixtures.fresh Fixtures.pkg_env)
                   ["proj"; "pkg"; "mod.py"]
                   (Analyzer.mkAnalyzer ["proj"; "pkg"; "mod.py"] ∅ {["foo"]}) _ _ _)).
  - vm_compute. reflexivity.
  - vm_compute. apply list_elem_of_In. right. left. reflexivity.
  - vm_compute. reflexivity.
Defined.

Lemma analyze_loop_keys (env : Env) (files : list Path) (q : Path) (st : State) :
  q ∈ keys (file_imports (self (for_ files (_analyze_file env) st).2)) →
  q ∈ keys (file_imports (self st))
  ∨ (q ∈ files ∧ ∃ a, Analyzer.analyze env (Analyzer.init q) = Ok a).
Proof.
  revert st. induction files as [|p files IH]; intros st; simpl; [by left|].
  unfold bind.
  destruct (analyze_file_self env p st) as [Hs|(a & Ha & Hs)];
    destruct (_analyze_file env p st) as [[[]|e] st1]; simpl in *.
  - intros Hq. destruct (IH st1 Hq) as [Hq1|(Hq1 & Hq2)].
    + left. by rewrite <- Hs.
    + right. split; [apply elem_of_cons; by right|done].
  - rewrite Hs. by left.
  - intros Hq. destruct (IH st1 Hq) as [Hq1|(Hq1 & Hq2)].
    + rewrite Hs in Hq1. simpl in Hq1. apply elem_of_keys_set in Hq1 as [->|Hq1].
      * right. split; [apply elem_of_cons; by left|eauto].
      * by left.
    + right. split; [apply elem_of_cons; by right|done].
  - rewrite Hs. simpl. intros Hq. apply elem_of_keys_set in Hq as [->|Hq].
    + right. split; [apply elem_of_cons; by left|eauto].
    + by left.
Qed.

(** Where a collected path comes from. *)
Lemma collected_paths_origin (env : Env) (m : LinterManager) (q : Path) :
  q ∈ collected_paths env m →
  if is_file env (root_path m) then q = root_path m
  else ∃ top dirpath dirs files filename,
         stat env (root_path m) = Some top ∧
         (dirpath, dirs, files) ∈ walk (keep_dir env m) (root_path m) top ∧
         filename ∈ files ∧ endswith filename ".py" = true ∧
         q = truediv dirpath filename.
Proof.
  unfold collected_paths. destruct (is_file env (root_path m)).
  { by intros ->%list_elem_of_singleton. }
  destruct (is_dir env (root_path m)); [|by intros ?%elem_of_nil].
  destruct (stat env (root_path m)) as [top|]; [|by intros ?%elem_of_nil].
  rewrite list_elem_of_In, in_flat_map.
  intros ([[dirpath dirs] filenames] & Hwalk & Hq).
  apply list_elem_of_In, list_elem_of_fmap in Hq as (filename & -> & Hf).
  apply list_elem_of_In, filter_In in Hf as [Hf Hpy].
  exists top, dirpath, dirs, filenames, filename.
  split; [done|]. split; [by apply list_elem_of_In|].
  split; [by apply list_elem_of_In|done].
Qed.

(** X18. The collection adds to the index nothing but collected paths that
    could be analysed, however it ends.  When the root is a file the only
    path collected is the root itself, whatever its name; when it is a
    directory every path collected is a directory the pruned walk of the
    root yields, joined with one of the file names listed for that
    directory, ending in [.py]. *)
Theorem collect_files_adds_only_collected (env : Env) (st : State) (q : Path) :
  q ∈ keys (file_imports (self (_collect_files env st).2)) →
  q ∈ keys (file_imports (self st))
  ∨ (q ∈ collected_paths env (self st) ∧
     (∃ a, Analyzer.analyze env (Analyzer.init q) = Ok a) ∧
     if is_file env (root_path (self st)) then q = root_path (self st)
     else ∃ top dirpath dirs files filename,
            stat env (root_path (self st)) = Some top ∧
            (dirpath, dirs, files)
            ∈ walk (keep_dir env (self st)) (root_path (self st)) top ∧
            filename ∈ files ∧ endswith filename ".py" = true ∧
            q = truediv dirpath filename).
Proof.
  rewrite collect_files_loop. intros Hq.
  destruct (analyze_loop_keys env _ q st Hq) as [?|[Hin Ha]]; [by left|].
  right. split; [exact Hin|]. split; [exact Ha|]. by apply collected_paths_origin.
Qed.

Lemma collect_files_adds_only_collected_witness :
  ["proj"; "app.py"]
  ∈ collected_paths Fixtures.pkg_env (self (Fixtures.fresh Fixtures.pkg_env)) ∧
  ∃ top dirpath dirs files filename,
    stat Fixtures.pkg_env ["proj"] = Some top ∧
    (dirpath, dirs, files)
    ∈ walk (keep_dir Fixtures.pkg_env (self (Fixtures.fresh Fixtures.pkg_env)))
           ["proj"] top ∧
    filename ∈ files ∧ endswith filename ".py" = true ∧
    ["proj"; "app.py"] = truediv dirpath filename.
Proof.
  destruct (collect_files_adds_only_collected
              Fixtures.pkg_env (Fixtures.fresh Fixtures.pkg_env) ["proj"; "app.py"])
    as [Hold|(Hin & _ & Hshape)].
  - vm_compute. apply list_elem_of_In. left. reflexivity.
  - vm_compute in Hold. apply list_elem_of_In in Hold. destruct Hold.
  - split; [exact Hin|exact Hshape].
Defined.

(** A file below a pruned directory is not collected, and so never a key
    of the index. *)
Example pruned_file_not_collected :
  ["proj"; "__pycache__"; "cached.py"]
  ∉ collected_paths
      (Fixtures.project_env
         [("app.py", FsFile (Ok []));
          ("__pycache__", FsDir [("cached.py", FsFile (Ok []))])]
         elements Fixtures.no_module)
      (self (Fixtures.fresh Fixtures.empty_env)).
Proof. vm_compute. intros Hin. apply list_elem_of_In in Hin. simpl in Hin. intuition discriminate. Qed.

End CollectionLaws.

(** ** The walk *)

Section WalkLaws.
Import Py Os Manager Props Laws.

Lemma elem_of_dirnames (es : list (string * fsnode)) (d : string) :
  d ∈ dirnames es ↔ ∃ sub, (d, FsDir sub) ∈ es.
Proof.
  unfold dirnames. rewrite list_elem_of_omap. split.
  - intros ([n x] & Hin & Hx). simpl in Hx. destruct x as [src|sub]; [done|].
    injection Hx as ->. eauto.
  - intros (sub & Hin). exists (d, FsDir sub). done.
Qed.

(** Every triple the walk yields lists only kept directory names, and is
    the top or a kept name listed by another triple of the walk. *)
Lemma walk_ancestry (keep : Path → string → bool) (n : fsnode) :
  ∀ (top dirpath : Path) (dirs files : list string),
    (dirpath, dirs, files) ∈ walk keep top n →
    Forall (fun d => keep dirpath d = true) dirs ∧
    (dirpath = top
     ∨ ∃ parent pdirs pfiles d,
         (parent, pdirs, pfiles) ∈ walk keep top n ∧ d ∈ pdirs ∧
         keep parent d = true ∧ dirpath = parent ++ [d]).
Proof.
  revert n. fix IH 1. intros [src|es] top dirpath dirs files Hin.
  { by apply elem_of_nil in Hin. }
  assert (Hsub : ∀ l : list (string * fsnode),
             ∀ e, e ∈ l →
                  ∀ sub, e.2 = FsDir sub →
                         ∀ t dp ds fs, (dp, ds, fs) ∈ walk keep t e.2 →
             Forall (fun d => keep dp d = true) ds ∧
             (dp = t
              ∨ ∃ parent pdirs pfiles d,
                  (parent, pdirs, pfiles) ∈ walk keep t e.2 ∧ d ∈ pdirs ∧
                  keep parent d = true ∧ dp = parent ++ [d])).
  { fix IHl 1. intros [|e0 l] e He; [by apply elem_of_nil in He|].
    apply elem_of_cons in He as [->|He].
    - intros sub _. apply IH.
    - exact (IHl l e He). }
  cbn [walk] in Hin. apply elem_of_cons in Hin as [Hhead|Htail].
  - injection Hhead as -> -> ->. split; [|by left].
    apply Forall_forall. intros d Hd.
    apply list_elem_of_In, filter_In in Hd as [_ Hk]. exact Hk.
  - apply list_elem_of_In, in_flat_map in Htail as ([name child] & He & Hin).
    apply list_elem_of_In in He. simpl in Hin.
    destruct child as [src|sub]; [destruct Hin|].
    destruct (keep top name) eqn:Hkeep; [|destruct Hin].
    apply list_elem_of_In in Hin.
    destruct (Hsub es (name, FsDir sub) He sub eq_refl (top ++ [name]) dirpath dirs files Hin)
      as [Hdirs Hanc].
    split; [exact Hdirs|]. right.
    assert (Hlift : ∀ t, t ∈ walk keep (top ++ [name]) (FsDir sub) →
                         t ∈ walk keep top (FsDir es)).
    { intros t Ht. cbn [walk]. apply elem_of_cons. right.
      apply list_elem_of_In, in_flat_map. exists (name, FsDir sub).
      split; [by apply list_elem_of_In|]. simpl. rewrite Hkeep.
      by apply list_elem_of_In. }
    destruct Hanc as [->|(parent & pdirs & pfiles & d & Hp & Hd & Hk & ->)].
    + exists top, (List.filter (keep top) (dirnames es)), (filenames es), name.
      split; [cbn [walk]; apply elem_of_cons; by left|].
      split; [|done].
      apply list_elem_of_In, filter_In. split; [|exact Hkeep].
      apply list_elem_of_In, elem_of_dirnames. eauto.
    + exists parent, pdirs, pfiles, d. split; [by apply Hlift|done].
Qed.

Lemma keep_dir_true (env : Env) (m : LinterManager) (dirpath : Path) (d : string) :
  keep_dir env m dirpath d = true ↔
  (d ∉ excluded_dirs m) ∧ Utils.is_venv env (truediv dirpath d) = false.
Proof.
  unfold keep_dir. rewrite andb_true_iff, !negb_true_iff, bool_decide_eq_false. tauto.
Qed.

(** X19. The walk of [_analyze_directory] never enters an excluded
    directory or a virtual environment: every directory it visits is the
    root, or a name that its parent directory, itself visited, listed after
    pruning, and that name is not excluded and is no virtual environment.
    The names a visited directory lists after pruning are all such. *)
Theorem analyze_directory_skips_excluded (env : Env) (m : LinterManager) (top : fsnode)
    (dirpath : Path) (dirs files : list string) :
  (dirpath, dirs, files) ∈ walk (keep_dir env m) (root_path m) top →
  Forall (fun d => (d ∉ excluded_dirs m) ∧
                   Utils.is_venv env (truediv dirpath d) = false) dirs ∧
  (dirpath = root_path m
   ∨ ∃ parent pdirs pfiles d,
       (parent, pdirs, pfiles) ∈ walk (keep_dir env m) (root_path m) top ∧
       d ∈ pdirs ∧ dirpath = parent ++ [d] ∧
       (d ∉ excluded_dirs m) ∧ Utils.is_venv env (truediv parent d) = false).
Proof.
  intros Hin. destruct (walk_ancestry _ _ _ _ _ _ Hin) as [Hdirs Hanc]. split.
  - eapply Forall_impl; [exact Hdirs|]. intros d Hd. by apply keep_dir_true.
  - destruct Hanc as [->|(parent & pdirs & pfiles & d & Hp & Hd & Hk & ->)]; [by left|].
    right. exists parent, pdirs, pfiles, d. apply keep_dir_true in Hk as [? ?]. done.
Qed.

Lemma analyze_directory_skips_excluded_witness :
  ["proj"; "pkg"] = ["proj"]
  ∨ ∃ parent pdirs pfiles d,
      (parent, pdirs, pfiles)
      ∈ walk (keep_dir Fixtures.pkg_env (self (Fixtures.fresh Fixtures.pkg_env)))
             ["proj"] (FsDir Fixtures.pkg_project) ∧
      d ∈ pdirs ∧ ["proj"; "pkg"] = parent ++ [d] ∧
      (d ∉ excluded_dirs (self (Fixtures.fresh Fixtures.pkg_env))) ∧
      Utils.is_venv Fixtures.pkg_env (truediv parent d) = false.
Proof.
  refine (proj2 (analyze_directory_skips_excluded
                   Fixtures.pkg_env (self (Fixtures.fresh Fixtures.pkg_env))
                   (FsDir Fixtures.pkg_project) ["proj"; "pkg"] [] ["mod.py"] _)).
  vm_compute. apply list_elem_of_In. right. left. reflexivity.
Defined.

(** X20. The default exclusions cannot be switched off: for a manager as
    [__init__] builds it, with or without extra exclusions, no directory
    the walk visits below the root is named by a default exclusion or by an
    extra one. *)
Theorem init_exclusions_hold (env : Env) (path : string) (excluded : option (gset string))
    (fix_ : bool) (top : fsnode) (dirpath : Path) (dirs files : list string) :
  (dirpath, dirs, files)
  ∈ walk (keep_dir env (init env path excluded fix_))
         (root_path (init env path excluded fix_)) top →
  dirpath ≠ root_path (init env path excluded fix_) →
  ∃ parent d,
    dirpath = parent ++ [d] ∧ (d ∉ DEFAULT_EXCLUDED_DIRS) ∧
    (∀ extra, excluded = Some extra → d ∉ extra).
Proof.
  intros Hin Hroot. destruct (walk_ancestry _ _ _ _ _ _ Hin) as [_ Hanc].
  destruct Hanc as [?|(parent & pdirs & pfiles & d & _ & _ & Hk & ->)]; [done|].
  exists parent, d. split; [done|]. apply keep_dir_true in Hk as [Hex _].
  unfold init in Hex; simpl in Hex. destruct excluded as [extra|].
  - apply not_elem_of_union in Hex as [? ?]. split; [done|]. by intros ? [= <-].
  - split; [done|]. by intros ? [=].
Qed.

Lemma init_exclusions_hold_witness :
  ∃ parent d, ["proj"; "pkg"] = parent ++ [d] ∧ (d ∉ DEFAULT_EXCLUDED_DIRS) ∧
              (∀ extra : gset string, None = Some extra → d ∉ extra).
Proof.
  refine (init_exclusions_hold Fixtures.pkg_env "/proj" None false
            (FsDir Fixtures.pkg_project) ["proj"; "pkg"] [] ["mod.py"] _ _).
  - vm_compute. apply list_elem_of_In. right. left. reflexivity.
  - discriminate.
Defined.

End WalkLaws.

(** ** Paths built from dotted names *)

Section PathLaws.
Import Py Os Manager Props Laws.

Lemma contains_app (c : ascii) (a b : string) :
  contains c (a +:+ b) = contains c a || contains c b.
Proof.
  induction a as [|x a IH]; [reflexivity|].
  change (contains c (String x (a +:+ b))
          = (Ascii.eqb x c || contains c a) || contains c b).
  simpl. by rewrite IH, orb_assoc.
Qed.

Lemma split_single (sep : ascii) (s : string) :
  contains sep s = false → split sep s = [s].
Proof. intros H. pose proof (split_contains sep s) as Hs. by rewrite H in Hs. Qed.

Lemma split_app_sep (sep : ascii) (p rest : string) :
  contains sep p = false →
  split sep (p +:+ String sep rest) = p :: split sep rest.
Proof.
  induction p as [|x p IH]; intros Hp.
  - change (split sep (String sep rest) = "" :: split sep rest).
    simpl. by rewrite Ascii.eqb_refl.
  - simpl in Hp. apply orb_false_iff in Hp as [Hx Hp].
    change (split sep (String x (p +:+ String sep rest)) = String x p :: split sep rest).
    simpl. rewrite Hx, IH by done. reflexivity.
Qed.

(** Splitting a joined list of separator-free pieces gives the pieces. *)
Lemma split_join (sep : ascii) (ps : list string) :
  ps ≠ [] → Forall (fun p => contains sep p = false) ps →
  split sep (join (String sep EmptyString) ps) = ps.
Proof.
  induction ps as [|p ps IH]; [done|]. intros _ Hall.
  apply Forall_cons in Hall as [Hp Hps].
  destruct ps as [|q qs]; [by apply split_single|].
  rewrite join_cons2.
  change (String sep "" +:+ join (String sep "") (q :: qs))
    with (String sep (join (String sep "") (q :: qs))).
  rewrite split_app_sep by done. by rewrite IH.
Qed.

Lemma is_absolute_join (ps : list string) :
  Forall component ps → is_absolute (join "/" ps) = false.
Proof.
  destruct ps as [|p ps]; [reflexivity|]. intros Hall.
  apply Forall_cons in Hall as [(Hne & _ & Hslash) _].
  destruct p as [|c p]; [done|]. simpl in Hslash. apply orb_false_iff in Hslash as [Hc _].
  assert (Hhead : ∃ t, join "/" (String c p :: ps) = String c t).
  { destruct ps; [by exists p|]. rewrite join_cons2. eexists. reflexivity. }
  destruct Hhead as [t ->]. unfold is_absolute.
  destruct (Ascii.eqb_spec c "/"); [done|].
  destruct c as [[] [] [] [] [] [] [] []]; try reflexivity. done.
Qed.

Lemma parts_of_str_join (ps : list string) :
  Forall component ps → parts_of_str (join "/" ps) = ps.
Proof.
  intros Hall. unfold parts_of_str. destruct ps as [|p ps]; [reflexivity|].
  rewrite split_join; [|done|eapply Forall_impl; [exact Hall|by intros ? (_ & _ & ?)]].
  induction Hall as [|x xs (Hne & Hdot & _) _ IH]; [reflexivity|].
  simpl. apply String.eqb_neq in Hne, Hdot. rewrite Hne, Hdot. simpl. by rewrite IH.
Qed.

(** Joining a path with components joined by slashes appends them. *)
Lemma truediv_join (root : Path) (ps : list string) :
  Forall component ps → truediv root (join "/" ps) = root ++ ps.
Proof.
  intros Hall. unfold truediv. by rewrite is_absolute_join, parts_of_str_join.
Qed.

Lemma truediv_component (root : Path) (s : string) :
  component s → truediv root s = root ++ [s].
Proof.
  intros Hs. apply (truediv_join root [s]). by constructor.
Qed.

Lemma component_of_segment (s : string) :
  plain_segment s → contains "." s = false → component s.
Proof.
  intros [Hne Hslash] Hdot. split; [done|]. split; [|done].
  intros ->. done.
Qed.

Lemma component_with_suffix (s : string) :
  contains "/" s = false → component (s +:+ ".py").
Proof.
  intros Hslash. split; [|split].
  - by destruct s.
  - destruct s as [|c [|c' s]]; done.
  - by rewrite contains_app, Hslash.
Qed.

End PathLaws.

(** ** More on the resolver *)

Section ResolverLaws.
Import Py Os Manager Props Laws.

Ltac run_m :=
  unfold bind, ret, raise, lift, get_self, emit, modify.

Lemma segments_components (import_path : string) :
  Forall plain_segment (split "." import_path) →
  Forall component (split "." import_path).
Proof.
  intros Hplain. pose proof (split_no_sep "." import_path) as Hdot.
  apply Forall_forall. intros s Hs.
  rewrite Forall_forall in Hplain, Hdot.
  apply component_of_segment; auto.
Qed.

(** X21. For a dotted import whose segments are plain names, the module
    file looked up in the index is [root/seg1/.../segN.py] and the package
    file looked for on disk is [root/seg1/.../segN/__init__.py]; when
    either is there the import is valid, and the module provider is not
    asked. *)
Theorem check_import_finds_local_module (env : Env) (m : LinterManager)
    (file_path : Path) (import_path : string) :
  Forall plain_segment (split "." import_path) →
  removelast (split "." import_path) ≠ [] →
  (mem (root_path m ++ removelast (split "." import_path)
                    ++ [List.last (split "." import_path) "" +:+ ".py"])
       (file_imports m) = true →
   _check_import env m file_path import_path = Ok None) ∧
  (exists_ env (root_path m ++ split "." import_path ++ ["__init__.py"]) = true →
   _check_import env m file_path import_path = Ok None).
Proof.
  intros Hplain Hmods.
  pose proof (segments_components import_path Hplain) as Hcomp.
  pose proof (app_removelast_last "" (split_nonempty "." import_path)) as Hparts.
  assert (Hcm : Forall component (removelast (split "." import_path))
                ∧ component (List.last (split "." import_path) "")).
  { rewrite Hparts in Hcomp. apply Forall_app in Hcomp as [? Hl].
    split; [done|]. by inversion Hl. }
  destruct Hcm as [Hcmods Hcattr].
  unfold _check_import.
  destruct (split "." import_path) as [|p0 ps] eqn:Esplit; [done|].
  destruct (removelast (p0 :: ps)) as [|q0 qs] eqn:Emods; [done|].
  rewrite (truediv_join (root_path m) (q0 :: qs)) by done.
  rewrite (truediv_component (root_path m ++ q0 :: qs)
             (List.last (p0 :: ps) "" +:+ ".py"))
    by (apply component_with_suffix; apply Hcattr).
  rewrite <- Hparts.
  rewrite (truediv_join (root_path m) (p0 :: ps)) by done.
  rewrite (truediv_component (root_path m ++ p0 :: ps) "__init__.py") by done.
  rewrite <- !app_assoc. split.
  - by intros ->.
  - intros ->. by destruct (mem _ _).
Qed.

Lemma check_import_finds_local_module_witness :
  _check_import Fixtures.pkg_env (self Fixtures.pkg_indexed) ["proj"; "app.py"] "pkg.mod"
  = Ok None.
Proof.
  refine (proj1 (check_import_finds_local_module
                   Fixtures.pkg_env (self Fixtures.pkg_indexed)
                   ["proj"; "app.py"] "pkg.mod" _ _) _).
  - repeat constructor; discriminate.
  - discriminate.
  - vm_compute. reflexivity.
Defined.

(** An issue [_check_import] returns was built by the external check. *)
Lemma check_import_issue_fields (env : Env) (m : LinterManager) (file_path : Path)
    (import_path : string) (i : ImportIssue) :
  _check_import env m file_path import_path = Ok (Some i) →
  removelast (split "." import_path) = [] ∧
  ∃ msg, Utils.validate_import env import_path (Some (str_of_path file_path))
         = Ok (Some msg) ∧
         i = mkIssue file_path import_path msg "EXTERNAL".
Proof.
  unfold _check_import.
  destruct (split "." import_path) as [|p0 ps] eqn:Esplit; [done|].
  destruct (removelast (p0 :: ps)) as [|q0 qs] eqn:Emods.
  - intros Hext. split; [done|]. unfold check_external in Hext.
    destruct (Utils.validate_import env import_path (Some (str_of_path file_path)))
      as [[msg|]|err]; simpl in Hext; [|done..].
    destruct (truthy msg); [|done]. injection Hext as <-. eauto.
  - destruct (mem _ _); [done|]. destruct (exists_ _ _); done.
Qed.

(** X22. Every issue [_check_import] returns is about the file and the
    import it was asked about, is of type EXTERNAL, carries the non-empty
    message of [validate_import], and concerns an import path without a
    dot: no issue of another type is ever returned. *)
Theorem check_import_issue_shape (env : Env) (m : LinterManager) (file_path : Path)
    (import_path : string) (i : ImportIssue) :
  _check_import env m file_path import_path = Ok (Some i) →
  file i = file_path ∧ Manager.import_path i = import_path ∧
  issue_type i = "EXTERNAL" ∧ truthy (message i) = true ∧
  contains "." import_path = false ∧
  Utils.validate_import env import_path (Some (str_of_path file_path))
  = Ok (Some (message i)).
Proof.
  intros Hi. apply check_import_issue_fields in Hi as (Hmods & msg & Hmsg & ->).
  simpl. repeat split; try done.
  - by apply validate_import_message_nonempty in Hmsg.
  - pose proof (split_contains "." import_path) as Hs.
    destruct (contains "." import_path); done.
Qed.

Lemma check_import_issue_shape_witness :
  issue_type (mkIssue ["proj"; "app.py"] "broken"
                      "Import error for 'broken': bad value" "EXTERNAL")
  = "EXTERNAL" ∧
  contains "." "broken" = false.
Proof.
  destruct (check_import_issue_shape
              Fixtures.broken_env (self (Fixtures.fresh Fixtures.broken_env))
              ["proj"; "app.py"] "broken"
              (mkIssue ["proj"; "app.py"] "broken"
                       "Import error for 'broken': bad value" "EXTERNAL"))
    as (_ & _ & Htype & _ & Hdot & _).
  - vm_compute. reflexivity.
  - split; [exact Htype|exact Hdot].
Defined.

Lemma for_preserves_in {X} (P : State → Prop) (xs : list X) (body : X → M unit) :
  (∀ x st, x ∈ xs → P st → P (body x st).2) →
  ∀ st, P st → P (for_ xs body st).2.
Proof.
  induction xs as [|x xs IH]; intros Hbody st Hst; simpl; [done|].
  unfold bind. pose proof (Hbody x st (list_elem_of_here x xs) Hst) as Hx.
  destruct (body x st) as [[[]|e] st']; simpl in *; [|done].
  apply IH; [|done]. intros y st1 Hy. apply Hbody. by apply list_elem_of_further.
Qed.

(** X23. Whatever issues the resolver adds, and whether it returns or
    raises, each of them names a file of the index and an import path
    recorded for that file. *)
Theorem validate_imports_reports_recorded_imports (env : Env) (st : State)
    (i : ImportIssue) :
  iterates_elements env →
  i ∈ issues (self (_validate_imports env st).2) →
  i ∈ issues (self st)
  ∨ ∃ imports, (file i, imports) ∈ file_imports (self st) ∧
               Manager.import_path i ∈ imports.
Proof.
  intros Hiter.
  set (P := fun st' : State =>
              ∀ j, j ∈ issues (self st') →
                   j ∈ issues (self st)
                   ∨ ∃ imports, (file j, imports) ∈ file_imports (self st) ∧
                                Manager.import_path j ∈ imports).
  assert (HP : P (_validate_imports env st).2); [|by apply HP].
  unfold _validate_imports. run_m.
  apply (for_preserves_in P); [|by left].
  intros [file_path imports] st1 Hkv Hst1.
  apply (for_preserves_in P); [|exact Hst1].
  intros imp st2 Himp Hst2 j. unfold validate_one. run_m.
  destruct (_check_import env (self st2) file_path imp) as [[k|]|e] eqn:Hk; simpl;
    [|apply Hst2..].
  rewrite elem_of_app, list_elem_of_singleton. intros [Hj| ->]; [by apply Hst2|].
  apply check_import_issue_fields in Hk as (_ & msg & _ & ->). simpl.
  right. exists imports. split; [exact Hkv|].
  rewrite (Hiter imports) in Himp. by apply elem_of_elements in Himp.
Qed.

Lemma validate_imports_reports_recorded_imports_witness :
  mkIssue ["proj"; "app.py"] "broken" "Import error for 'broken': bad value" "EXTERNAL"
  ∈ issues (self (_collect_files Fixtures.broken_env
                    (Fixtures.fresh Fixtures.broken_env)).2)
  ∨ ∃ imports,
      (["proj"; "app.py"], imports)
      ∈ file_imports (self (_collect_files Fixtures.broken_env
                              (Fixtures.fresh Fixtures.broken_env)).2) ∧
      "broken" ∈ imports.
Proof.
  refine (validate_imports_reports_recorded_imports
            Fixtures.broken_env
            (_collect_files Fixtures.broken_env (Fixtures.fresh Fixtures.broken_env)).2
            (mkIssue ["proj"; "app.py"] "broken" "Import error for 'broken': bad value"
                     "EXTERNAL") _ _).
  - intros s. reflexivity.
  - cut (issues (self (_validate_imports Fixtures.broken_env
                         (_collect_files Fixtures.broken_env
                            (Fixtures.fresh Fixtures.broken_env)).2).2)
         = [mkIssue ["proj"; "app.py"] "broken" "Import error for 'broken': bad value"
                    "EXTERNAL"]).
    + intros ->. apply list_elem_of_here.
    + vm_compute. reflexivity.
Defined.

(** X24. The resolver returns exactly when every check of every recorded
    import returns, and then the issues it adds come file by file in the
    order of the index, and within a file in the order its import set is
    iterated; the first check that raises ends it. *)
Theorem validate_imports_issue_order (env : Env) (st : State) :
  ((_validate_imports env st).1 = Ok tt
   ↔ Forall (file_returns env (self st)) (file_imports (self st))) ∧
  (Forall (file_returns env (self st)) (file_imports (self st)) →
   issues (self (_validate_imports env st).2)
   = issues (self st)
     ++ concat (file_issues env (self st) <$> file_imports (self st))).
Proof.
  split; [apply validate_imports_returns|].
  intros Hall. by rewrite (validate_imports_closed_form env st Hall).
Qed.

Lemma validate_imports_issue_order_witness :
  issues (self (_validate_imports Fixtures.forward_env Fixtures.two_missing_indexed).2)
  = issues (self Fixtures.two_missing_indexed)
    ++ concat (file_issues Fixtures.forward_env (self Fixtures.two_missing_indexed)
                 <$> file_imports (self Fixtures.two_missing_indexed)).
Proof.
  refine (proj2 (validate_imports_issue_order
                   Fixtures.forward_env Fixtures.two_missing_indexed) _).
  refine (proj1 (validate_imports_returns
                   Fixtures.forward_env Fixtures.two_missing_indexed) _).
  vm_compute. reflexivity.
Defined.

Lemma validate_imports_issues_permutation_witness :
  (_validate_imports Fixtures.backward_env Fixtures.two_missing_indexed).1 = Ok tt ∧
  issues (self (_validate_imports Fixtures.backward_env Fixtures.two_missing_indexed).2)
  ≡ₚ issues (self (_validate_imports Fixtures.forward_env Fixtures.two_missing_indexed).2).
Proof.
  apply (validate_imports_issues_permutation
           Fixtures.forward_env Fixtures.backward_env Fixtures.two_missing_indexed).
  - intros name. simpl. reflexivity.
  - intros p. reflexivity.
  - apply Forall_forall. intros kv _. simpl. symmetry. apply reverse_Permutation.
  - vm_compute. reflexivity.
Defined.

End ResolverLaws.

(** ** Whole runs *)

Section RunLaws.
Import Py Os Manager Props Laws.

Ltac run_m :=
  unfold bind, ret, raise, lift, get_self, emit, modify.

(** X26. With a root that exists and nothing to collect under it (an empty
    directory, or a tree without a [.py] file outside the excluded
    directories) a run on an empty index analyses nothing, checks nothing
    and returns the issues it started with, leaving manager and log as
    they were. *)
Theorem run_nothing_to_collect (env : Env) (st : State) :
  exists_ env (root_path (self st)) = true →
  collected_paths env (self st) = [] →
  file_imports (self st) = [] →
  run env st = (Ok (issues (self st)), st).
Proof.
  intros Hroot Hnone Hindex. unfold run. run_m. rewrite Hroot. simpl.
  rewrite collect_files_loop, Hnone. simpl. unfold ret.
  unfold _validate_imports. run_m. rewrite Hindex. reflexivity.
Qed.

Lemma run_nothing_to_collect_witness :
  run (Fixtures.project_env [("README.md", FsFile (Raise Fixtures.invalid_error));
                             ("__pycache__",
                              FsDir [("cached.py", FsFile (Ok []))])]
                            elements Fixtures.no_module)
      (Fixtures.fresh Fixtures.empty_env)
  = (Ok [], Fixtures.fresh Fixtures.empty_env).
Proof.
  apply (run_nothing_to_collect
           (Fixtures.project_env [("README.md", FsFile (Raise Fixtures.invalid_error));
                                  ("__pycache__",
                                   FsDir [("cached.py", FsFile (Ok []))])]
                                 elements Fixtures.no_module)
           (Fixtures.fresh Fixtures.empty_env)).
  - reflexivity.
  - vm_compute. reflexivity.
  - reflexivity.
Defined.

(** *** Running again *)

Lemma set_same {K V} `{EqDecision K} (k : K) (v : V) (d : dict K V) :
  get k d = Some v → set k v d = d.
Proof.
  induction d as [|[k' v'] d IH]; simpl; [done|].
  destruct (decide (k' = k)) as [->|Hk]; [by intros [= ->]|].
  intros Hget. by rewrite IH.
Qed.

Lemma set_index_same (p : Path) (a : Analyzer.PythonFileAnalyzer) (m : LinterManager) :
  get p (file_imports m) = Some (Analyzer.imported_modules a) →
  get p (module_defs m) = Some (Analyzer.module_defs a) →
  set_index p a m = m.
Proof.
  intros Hi Hd. unfold set_index. rewrite (set_same _ _ _ Hi), (set_same _ _ _ Hd).
  by destruct m.
Qed.

(** Whether [_analyze_file] returns depends on the state through the
    auto-fix flag only. *)
Lemma analyze_file_result_indep (env : Env) (p : Path) (st st' : State) :
  auto_fix (self st) = auto_fix (self st') →
  (_analyze_file env p st).1 = (_analyze_file env p st').1.
Proof.
  intros Hfix. unfold _analyze_file. run_m. rewrite <- Hfix.
  destruct (auto_fix (self st)); simpl.
  - destruct (Utils.pre_cleanup_with_ruff env p) as [[b|e] records]; simpl; [|done].
    destruct (Analyzer.analyze env (Analyzer.init p)) as [a|err]; simpl; [done|].
    destruct (is_class SyntaxError err); simpl; [done|].
    by destruct (is_Exception err).
  - destruct (Analyzer.analyze env (Analyzer.init p)) as [a|err]; simpl; [done|].
    destruct (is_class SyntaxError err); simpl; [done|].
    by destruct (is_Exception err).
Qed.

Lemma analyze_loop_each_returns (env : Env) (files : list Path) (st : State) :
  (for_ files (_analyze_file env) st).1 = Ok tt →
  ∀ p st', p ∈ files → auto_fix (self st') = auto_fix (self st) →
           (_analyze_file env p st').1 = Ok tt.
Proof.
  revert st. induction files as [|p0 files IH]; intros st Hok p st' Hp Hfix; simpl in *.
  { by apply elem_of_nil in Hp. }
  unfold bind in Hok.
  pose proof (analyze_file_preserves (fun m => auto_fix m = auto_fix (self st))
                env p0 st (fun _ _ _ H => H) eq_refl) as Hfix0.
  destruct (_analyze_file env p0 st) as [[[]|e] st1] eqn:Hstep; simpl in *; [|done].
  apply elem_of_cons in Hp as [->|Hp].
  - rewrite (analyze_file_result_indep env p0 st' st Hfix). by rewrite Hstep.
  - apply (IH st1 Hok p st' Hp). by rewrite Hfix0.
Qed.

(** Collecting again over an index that already holds what each file
    gives returns and leaves the manager as it is. *)
Lemma analyze_loop_again (env : Env) (files : list Path) (st : State) :
  (∀ p st', p ∈ files → auto_fix (self st') = auto_fix (self st) →
            (_analyze_file env p st').1 = Ok tt) →
  (∀ p a, p ∈ files → Analyzer.analyze env (Analyzer.init p) = Ok a →
          get p (file_imports (self st)) = Some (Analyzer.imported_modules a) ∧
          get p (module_defs (self st)) = Some (Analyzer.module_defs a)) →
  (for_ files (_analyze_file env) st).1 = Ok tt ∧
  self (for_ files (_analyze_file env) st).2 = self st.
Proof.
  revert st. induction files as [|p0 files IH]; intros st Hret Hheld; simpl; [done|].
  unfold bind.
  pose proof (Hret p0 st (list_elem_of_here _ _) eq_refl) as Hok0.
  assert (Hself : self (_analyze_file env p0 st).2 = self st).
  { destruct (analyze_file_self env p0 st) as [?|(a & Ha & ->)]; [done|].
    destruct (Hheld p0 a (list_elem_of_here _ _) Ha) as [Hi Hd].
    by apply set_index_same. }
  destruct (_analyze_file env p0 st) as [[[]|e] st1]; simpl in *; [|done].
  destruct (IH st1) as [Hok Hs].
  - intros p st' Hp Hfix. apply Hret; [by apply list_elem_of_further|].
    by rewrite Hfix, Hself.
  - intros p a Hp Ha. rewrite Hself. apply Hheld; [by apply list_elem_of_further|done].
  - split; [exact Hok|]. by rewrite Hs.
Qed.

Lemma collected_paths_ext (env : Env) (m m' : LinterManager) :
  root_path m = root_path m' → excluded_dirs m = excluded_dirs m' →
  collected_paths env m = collected_paths env m'.
Proof.
  intros Hr He. unfold collected_paths, keep_dir. by rewrite Hr, He.
Qed.

(** X27. A second run on the same manager does not start afresh: when a
    run returns, running again returns the issues of the first run
    followed by the issues the first run added, once more. The issue list
    is never reset and the files are analysed again into the same index. *)
Theorem run_twice_repeats_issues (env : Env) (st st1 : State) (l : list ImportIssue) :
  run env st = (Ok l, st1) →
  ∃ found, l = issues (self st) ++ found ∧ (run env st1).1 = Ok (l ++ found).
Proof.
  unfold run. run_m.
  destruct (exists_ env (root_path (self st))) eqn:Hroot; simpl; [|done].
  destruct (_collect_files env st) as [[[]|ec] sc] eqn:Hc; simpl; [|done].
  destruct (_validate_imports env sc) as [[[]|ev] sv] eqn:Hv; simpl; [|done].
  intros [= <- <-].
  pose proof (collect_files_preserves (fun m => issues m = issues (self st))
                env st (fun _ _ _ H => H) eq_refl) as Hci.
  pose proof (collect_files_preserves (fun m => root_path m = root_path (self st))
                env st (fun _ _ _ H => H) eq_refl) as Hcr.
  pose proof (collect_files_preserves (fun m => excluded_dirs m = excluded_dirs (self st))
                env st (fun _ _ _ H => H) eq_refl) as Hce.
  pose proof (collect_files_preserves (fun m => auto_fix m = auto_fix (self st))
                env st (fun _ _ _ H => H) eq_refl) as Hcf.
  rewrite Hc in Hci, Hcr, Hce, Hcf. simpl in Hci, Hcr, Hce, Hcf.
  assert (Hall : Forall (file_returns env (self sc)) (file_imports (self sc))).
  { apply validate_imports_returns. by rewrite Hv. }
  pose proof (validate_imports_closed_form env sc Hall) as Hform.
  rewrite Hv in Hform. injection Hform as Hsv.
  set (found := concat (file_issues env (self sc) <$> file_imports (self sc))) in *.
  exists found. rewrite Hsv. cbn [self log add_issues issues root_path].
  rewrite Hci. split; [reflexivity|].
  rewrite Hcr, Hroot. simpl.
  (* the second collection *)
  set (sv' := mkState (add_issues found (self sc)) (log sc)).
  assert (Hfiles : collected_paths env (self sv') = collected_paths env (self st)).
  { apply collected_paths_ext; simpl; done. }
  pose proof (collect_files_loop env st) as Hloop. rewrite Hc in Hloop.
  assert (Hagain : (_collect_files env sv').1 = Ok tt
                   ∧ self (_collect_files env sv').2 = self sv').
  { rewrite collect_files_loop, Hfiles. apply analyze_loop_again.
    - intros p st' Hp Hfix.
      apply (analyze_loop_each_returns env (collected_paths env (self st)) st);
        [by rewrite <- Hloop|done|]. rewrite Hfix. simpl. exact Hcf.
    - intros p a Hp Ha. simpl.
      pose proof (analyze_loop_stores env (collected_paths env (self st)) p a st) as Hs.
      rewrite <- Hloop in Hs. simpl in Hs. by apply Hs. }
  destruct Hagain as [Hok2 Hself2].
  fold sv'.
  destruct (_collect_files env sv') as [[[]|e2] sc2]; simpl in *; [|done].
  (* the second resolution *)
  assert (Hall2 : Forall (file_returns env (self sc2)) (file_imports (self sc2))).
  { rewrite Hself2. exact Hall. }
  rewrite (validate_imports_closed_form env sc2 Hall2). simpl.
  rewrite Hself2. simpl. rewrite Hci. reflexivity.
Qed.

Lemma run_twice_repeats_issues_witness :
  ∃ found,
    [mkIssue ["proj"; "app.py"] "broken" "Import error for 'broken': bad value" "EXTERNAL"]
    = issues (self (Fixtures.fresh Fixtures.broken_env)) ++ found ∧
    (run Fixtures.broken_env
         (run Fixtures.broken_env (Fixtures.fresh Fixtures.broken_env)).2).1
    = Ok ([mkIssue ["proj"; "app.py"] "broken" "Import error for 'broken': bad value"
                   "EXTERNAL"] ++ found).
Proof.
  apply (run_twice_repeats_issues
           Fixtures.broken_env (Fixtures.fresh Fixtures.broken_env)
           (run Fixtures.broken_env (Fixtures.fresh Fixtures.broken_env)).2
           [mkIssue ["proj"; "app.py"] "broken" "Import error for 'broken': bad value"
                    "EXTERNAL"]).
  vm_compute. reflexivity.
Defined.

End RunLaws.

(** ** Files that cannot be analysed, in the collection *)

Section ParseFailures.
Import Py Os Manager Props Laws.

Ltac run_m :=
  unfold bind, ret, raise, lift, get_self, emit, modify.

(** The call on a file whose reading or parsing raises an [Exception]. *)
Lemma analyze_file_failure_step (env : Env) (p : Path) (err : PyExc) (st : State) :
  stat env p = Some (FsFile (Raise err)) →
  is_Exception err = true →
  cleanup_returns env (self st) p →
  _analyze_file env p st
  = (Ok tt, mkState (self st)
                    (log st ++ cleanup_records env (self st) p
                            ++ [failure_record p err])).
Proof.
  intros Hstat Hexc Hclean.
  rewrite (analyze_file_cases env p st Hclean), (analyze_parse_failure env p err Hstat).
  unfold failure_record. rewrite Hexc. by destruct (is_class SyntaxError err).
Qed.

(** What the cleanup step logs: nothing, or one record about [ruff]
    itself. *)
Lemma cleanup_records_shape (env : Env) (m : LinterManager) (p : Path) (r : LogRecord) :
  r ∈ cleanup_records env m p →
  cleanup_records env m p = [r] ∧ auto_fix m = true ∧
  ∃ ex, subprocess_run env (ruff_command p) = Raise ex ∧
        levelname r
        = (if bool_decide (exc_class ex = FileNotFoundError) then WARNING else ERROR).
Proof.
  unfold cleanup_records, Utils.pre_cleanup_with_ruff, Utils.run_subprocess,
    ruff_command, is_class.
  destruct (auto_fix m); [|by intros ?%elem_of_nil].
  destruct (subprocess_run env _) as [rc|ex]; simpl; [by intros ?%elem_of_nil|].
  destruct (bool_decide (exc_class ex = FileNotFoundError)) eqn:Hcls; simpl.
  - intros ->%list_elem_of_singleton. split; [done|]. split; [done|].
    exists ex. by rewrite Hcls.
  - destruct (is_Exception ex); simpl; [|by intros ?%elem_of_nil].
    intros ->%list_elem_of_singleton. split; [done|]. split; [done|].
    exists ex. by rewrite Hcls.
Qed.

(** [_analyze_file] reads the manager and never the log. *)
Lemma analyze_file_log_indep (env : Env) (q : Path) (st st' : State) :
  self st = self st' →
  (_analyze_file env q st).1 = (_analyze_file env q st').1 ∧
  self (_analyze_file env q st).2 = self (_analyze_file env q st').2.
Proof.
  destruct st as [m records0], st' as [m' records1]. simpl. intros <-.
  unfold _analyze_file. run_m. simpl.
  destruct (auto_fix m); simpl.
  - destruct (Utils.pre_cleanup_with_ruff env q) as [[b|e] records]; simpl; [|done].
    destruct (Analyzer.analyze env (Analyzer.init q)) as [a|err]; simpl; [done|].
    destruct (is_class SyntaxError err); simpl; [done|].
    by destruct (is_Exception err).
  - destruct (Analyzer.analyze env (Analyzer.init q)) as [a|err]; simpl; [done|].
    destruct (is_class SyntaxError err); simpl; [done|].
    by destruct (is_Exception err).
Qed.

(** A loop over files goes as the loop over the files other than [p], as
    far as outcome and manager go, when every call on [p] returns and
    leaves the manager alone. *)
Lemma analyze_loop_skips (env : Env) (p : Path) (fix_ : bool) (files : list Path) :
  (∀ s, auto_fix (self s) = fix_ →
        (_analyze_file env p s).1 = Ok tt ∧ self (_analyze_file env p s).2 = self s) →
  ∀ st st', self st = self st' → auto_fix (self st) = fix_ →
    (for_ files (_analyze_file env) st).1
    = (for_ (filter (λ q, q ≠ p) files) (_analyze_file env) st').1 ∧
    self (for_ files (_analyze_file env) st).2
    = self (for_ (filter (λ q, q ≠ p) files) (_analyze_file env) st').2.
Proof.
  intros Hskip. induction files as [|q files IH]; intros st st' Hself Hfix; [done|].
  destruct (decide (q = p)) as [->|Hq].
  - rewrite filter_cons_False by (intros Hne; by apply Hne).
    simpl. unfold bind. destruct (Hskip st Hfix) as [Hok Hs].
    destruct (_analyze_file env p st) as [[[]|e] st1]; simpl in *; [|done].
    apply IH; [by rewrite Hs|by rewrite Hs].
  - rewrite filter_cons_True by done. simpl. unfold bind.
    destruct (analyze_file_log_indep env q st st' Hself) as [Hr Hs].
    pose proof (analyze_file_preserves (fun m => auto_fix m = fix_)
                  env q st (fun _ _ _ H => H) Hfix) as Hfix1.
    destruct (_analyze_file env q st) as [[[]|e] st1];
      destruct (_analyze_file env q st') as [[[]|e'] st1']; simpl in *; try done.
    by apply IH.
Qed.

(** C6, as the code has it. A file whose reading or parsing raises an [Exception],
    handed to [_analyze_file] with a cleanup step that returns: the call
    returns normally and leaves the manager as it was, so neither map gains
    an entry; after whatever the cleanup step logged it logs one record,
    at warning level exactly when the exception is a [SyntaxError] and at
    error level otherwise.  The cleanup step logs nothing when auto-fix is
    off, and otherwise at most one record, about [ruff] failing to start: a
    warning when it is not found, an error for any other failure.  In the
    collection the file changes nothing but the log: its own entries are
    what they were, outcome and manager are those of the collection over
    the other collected paths, and when the collection returns every
    collected file that parses holds in both maps what the extractor
    records from its tree. *)
Theorem parse_failure_skips_file (env : Env) (p : Path) (err : PyExc) (st : State) :
  stat env p = Some (FsFile (Raise err)) →
  is_Exception err = true →
  cleanup_returns env (self st) p →
  _analyze_file env p st
  = (Ok tt, mkState (self st)
                    (log st ++ cleanup_records env (self st) p
                            ++ [failure_record p err])) ∧
  levelname (failure_record p err)
  = (if bool_decide (exc_class err = SyntaxError) then WARNING else ERROR) ∧
  (auto_fix (self st) = false → cleanup_records env (self st) p = []) ∧
  (∀ r, r ∈ cleanup_records env (self st) p →
        cleanup_records env (self st) p = [r] ∧
        ∃ ex, subprocess_run env (ruff_command p) = Raise ex ∧
              levelname r
              = (if bool_decide (exc_class ex = FileNotFoundError)
                 then WARNING else ERROR)) ∧
  get p (file_imports (self (_collect_files env st).2)) = get p (file_imports (self st)) ∧
  get p (module_defs (self (_collect_files env st).2)) = get p (module_defs (self st)) ∧
  (_collect_files env st).1
  = (for_ (filter (λ q, q ≠ p) (collected_paths env (self st))) (_analyze_file env) st).1 ∧
  self (_collect_files env st).2
  = self (for_ (filter (λ q, q ≠ p) (collected_paths env (self st)))
               (_analyze_file env) st).2 ∧
  (∀ q tree,
     (_collect_files env st).1 = Ok tt →
     q ∈ collected_paths env (self st) →
     stat env q = Some (FsFile (Ok tree)) →
     get q (file_imports (self (_collect_files env st).2))
     = Some (Visitor.imported_modules (extract tree)) ∧
     get q (module_defs (self (_collect_files env st).2))
     = Some (Visitor.module_defs (extract tree))).
Proof.
  intros Hstat Hexc Hclean.
  assert (Hskip : ∀ s, auto_fix (self s) = auto_fix (self st) →
                       (_analyze_file env p s).1 = Ok tt
                       ∧ self (_analyze_file env p s).2 = self s).
  { intros s Hfix.
    rewrite (analyze_file_failure_step env p err s Hstat Hexc); [done|].
    unfold cleanup_returns in *. by rewrite Hfix. }
  destruct (analyze_loop_skips env p (auto_fix (self st)) (collected_paths env (self st))
              Hskip st st eq_refl eq_refl) as [Hout Hself].
  rewrite <- collect_files_loop in Hout, Hself.
  assert (Hnot : p ∉ filter (λ q, q ≠ p) (collected_paths env (self st))).
  { intros [Hne _]%list_elem_of_filter. by apply Hne. }
  destruct (analyze_loop_other_paths env _ p st Hnot) as [Hi Hd].
  split; [by apply analyze_file_failure_step|].
  split; [unfold failure_record, is_class; by destruct (bool_decide _)|].
  split; [unfold cleanup_records; by intros ->|].
  split.
  { intros r Hr. destruct (cleanup_records_shape env (self st) p r Hr) as (? & _ & ?).
    done. }
  split; [by rewrite Hself|]. split; [by rewrite Hself|].
  split; [exact Hout|]. split; [exact Hself|].
  intros q tree Hok Hq Hqstat.
  rewrite collect_files_loop in Hok |- *.
  exact (analyze_loop_stores env _ q _ st Hok Hq (analyze_parses env q tree Hqstat)).
Qed.

Lemma parse_failure_skips_file_witness :
  _analyze_file Fixtures.invalid_env ["proj"; "invalid.py"]
                (Fixtures.fresh Fixtures.invalid_env)
  = (Ok tt,
     mkState (self (Fixtures.fresh Fixtures.invalid_env))
             [mkLog WARNING
                    "Syntax error in /proj/invalid.py: '(' was never closed (invalid.py, line 1)"]) ∧
  get ["proj"; "invalid.py"]
      (file_imports (self (_collect_files Fixtures.invalid_env
                                          (Fixtures.fresh Fixtures.invalid_env)).2))
  = None ∧
  get ["proj"; "valid.py"]
      (file_imports (self (_collect_files Fixtures.invalid_env
                                          (Fixtures.fresh Fixtures.invalid_env)).2))
  = Some {["os"]}.
Proof.
  destruct (parse_failure_skips_file
              Fixtures.invalid_env ["proj"; "invalid.py"] Fixtures.invalid_error
              (Fixtures.fresh Fixtures.invalid_env))
    as (Hcall & _ & _ & _ & Hown & _ & _ & _ & Hothers).
  - reflexivity.
  - reflexivity.
  - intros Hfix. vm_compute in Hfix. discriminate.
  - split; [exact Hcall|]. split; [exact Hown|].
    refine (proj1 (Hothers ["proj"; "valid.py"] [Ast.Import [Ast.mk_alias "os" None]]
                           _ _ _)).
    + vm_compute. reflexivity.
    + vm_compute. apply list_elem_of_In. right. left. reflexivity.
    + reflexivity.
Defined.

(** C6, counterexample. A file whose text [ast.parse]
    refuses with another exception than [SyntaxError] is logged at error
    level, with no warning; and with auto-fix on, a [ruff] that cannot be
    started adds an error record before the warning of a file that does
    not parse. *)
Theorem parse_failure_logged_as_error :
  _analyze_file Fixtures.nul_env ["proj"; "nul.py"] (Fixtures.fresh Fixtures.nul_env)
  = (Ok tt,
     mkState (self (Fixtures.fresh Fixtures.nul_env))
             [mkLog ERROR
                    "Error analyzing /proj/nul.py: source code string cannot contain null bytes"]) ∧
  _analyze_file Fixtures.fixing_env ["proj"; "invalid.py"] Fixtures.fixing
  = (Ok tt,
     mkState (self Fixtures.fixing)
             [mkLog ERROR "Subprocess error: [Errno 13] Permission denied: 'ruff'";
              mkLog WARNING
                    "Syntax error in /proj/invalid.py: '(' was never closed (invalid.py, line 1)"]).
Proof. vm_compute. split; reflexivity. Qed.

End ParseFailures.
